(** * puni-patcher: the patch importer and exporter

    A shallow embedding of [scripts/apply_patches.py] and
    [scripts/export_patches.py].  Both scripts are sequences of [git]
    invocations around a little validation and file handling, so the
    embedding is a state-and-trace monad over a small model of the
    filesystem, in which every external command is answered by an
    arbitrary oracle. *)

From Stdlib Require Import Ascii.
From stdpp Require Import base tactics option list sorting strings pretty gmap.

(** ** The [str] and [int] operations the scripts use

    A Python [str] is a [string]; each character stands for the code
    point of the same number (U+0000 to U+00FF). *)

Module Py.

Definition LF : string := String "010"%char "".

(** [str.isspace] on one character: the code points below 256 that
    Python treats as whitespace. *)
Definition isspace (c : ascii) : bool :=
  let n := N_of_ascii c in
  bool_decide (9 ≤ n ≤ 13)%N || bool_decide (28 ≤ n ≤ 32)%N
  || bool_decide (n = 133)%N || bool_decide (n = 160)%N.

Fixpoint lstrip (s : string) : string :=
  match s with
  | String c s' => if isspace c then lstrip s' else s
  | EmptyString => EmptyString
  end.

Fixpoint rstrip (s : string) : string :=
  match s with
  | EmptyString => EmptyString
  | String c s' =>
      match rstrip s' with
      | EmptyString => if isspace c then EmptyString else String c EmptyString
      | r => String c r
      end
  end.

(** [s.strip()] *)
Definition strip (s : string) : string := rstrip (lstrip s).

(** [len(s)] *)
Definition len (s : string) : nat := String.length s.

(** [s[:n]] *)
Fixpoint slice_to (n : nat) (s : string) : string :=
  match n, s with
  | S n', String c s' => String c (slice_to n' s')
  | _, _ => EmptyString
  end.

(** [sep.join(l)] *)
Fixpoint join (sep : string) (l : list string) : string :=
  match l with
  | [] => ""
  | x :: l' =>
      match l' with
      | [] => x
      | _ => x +:+ sep +:+ join sep l'
      end
  end.

(** [s * n] *)
Fixpoint times (s : string) (n : nat) : string :=
  match n with
  | O => ""
  | S n' => s +:+ times s n'
  end.

(** [s.endswith(suffix)] *)
Fixpoint endswith (s suffix : string) : bool :=
  bool_decide (s = suffix)
  || match s with
     | String _ s' => endswith s' suffix
     | EmptyString => false
     end.

(** [str(n)] for an [int], as an f-string prints it. *)
Definition str_int (n : Z) : string := pretty n.
Definition str_len (n : nat) : string := pretty n.

(** [sorted(l)] on strings: ascending code-point order. *)
Definition sorted (l : list string) : list string := merge_sort String.le l.

(** [parent / child] for a POSIX path written as a string. *)
Definition joinpath (parent child : string) : string :=
  if endswith parent "/" then parent +:+ child else parent +:+ "/" +:+ child.

End Py.

(** ** The world the scripts run in *)

Section World.
Context {Repo : Type}.

(** The files the scripts themselves read and write, and what they can
    see of the git repositories.  A text file is the [str] that
    [read_text] returns for it; a directory maps the names of its
    regular files to their texts. *)
Record World : Type := mkWorld {
  base_commit_file : option string;          (* BASE_COMMIT.txt, if it exists *)
  patches_dir : option (gmap string string); (* patches/, if it exists *)
  preview_diff : option string;              (* preview.diff, if it exists *)
  dot_git : gset string;                     (* the directories d with d/.git *)
  repos : Repo;                              (* whatever else git sees *)
}.

Definition set_base_commit_file (f : option string) (w : World) : World :=
  mkWorld f (patches_dir w) (preview_diff w) (dot_git w) (repos w).
Definition set_patches_dir (d : option (gmap string string)) (w : World) : World :=
  mkWorld (base_commit_file w) d (preview_diff w) (dot_git w) (repos w).
Definition set_preview_diff (f : option string) (w : World) : World :=
  mkWorld (base_commit_file w) (patches_dir w) f (dot_git w) (repos w).

(** What a finished child process leaves behind. *)
Record Child : Type := mkChild {
  child_returncode : Z;
  child_stdout : string;
  child_world : World;
}.

(** The environment of one invocation of a script. *)
Record Env : Type := mkEnv {
  subprocess : list string → string → World → Child; (* argv, cwd *)
  resolve : string → string;                          (* Path(p).resolve() *)
  getcwd : string;                                    (* Path.cwd() *)
  PATCH_REPO : string;                                (* SCRIPT_DIR.parent *)
}.

Definition PATCHES_DIR (E : Env) : string := Py.joinpath (PATCH_REPO E) "patches".
Definition PREVIEW_DIFF (E : Env) : string := Py.joinpath (PATCH_REPO E) "preview.diff".
Definition BASE_COMMIT_FILE (E : Env) : string := Py.joinpath (PATCH_REPO E) "BASE_COMMIT.txt".

(** What the process does that can be observed from outside. *)
Inductive Event : Type :=
| Stdout (text : string)                                   (* one call of print *)
| Stderr (text : string)                                   (* the message of sys.exit(text) *)
| Exec (cmd : list string) (cwd : string) (returncode : Z). (* one child process *)

Inductive Outcome (A : Type) : Type :=
| Returned (a : A)
| SysExit (status : Z)
| Uncaught (exc : string).
Global Arguments Returned {A} a.
Global Arguments SysExit {A} status.
Global Arguments Uncaught {A} exc.

(** The exit status of the process when the script ends this way. *)
Definition exit_status {A} (o : Outcome A) : Z :=
  match o with
  | Returned _ => 0
  | SysExit status => status
  | Uncaught _ => 1
  end.

Record Run (A : Type) : Type := mkRun {
  trace : list Event;
  final : World;
  outcome : Outcome A;
}.
Global Arguments mkRun {A} trace final outcome.
Global Arguments trace {A} r.
Global Arguments final {A} r.
Global Arguments outcome {A} r.

(** The child processes of a trace, in the order they were started. *)
Definition commands (t : list Event) : list (list string * string * Z) :=
  omap (λ e, match e with Exec cmd cwd rc => Some (cmd, cwd, rc) | _ => None end) t.

Definition M (A : Type) : Type := World → Run A.

Definition ret {A} (a : A) : M A := λ w, mkRun [] w (Returned a).

Definition bind {A B} (m : M A) (k : A → M B) : M B := λ w,
  match m w with
  | mkRun t w' (Returned a) =>
      match k a w' with
      | mkRun t' w'' o => mkRun (t ++ t') w'' o
      end
  | mkRun t w' (SysExit status) => mkRun t w' (SysExit status)
  | mkRun t w' (Uncaught exc) => mkRun t w' (Uncaught exc)
  end.

(** [print(text)] *)
Definition print (text : string) : M unit := λ w, mkRun [Stdout text] w (Returned tt).

(** [sys.exit(text)]: the text goes to stderr and the status is 1. *)
Definition sys_exit_msg {A} (text : string) : M A := λ w, mkRun [Stderr text] w (SysExit 1).

(** [sys.exit(status)] *)
Definition sys_exit {A} (status : Z) : M A := λ w, mkRun [] w (SysExit status).

(** An exception nobody catches. *)
Definition raise {A} (exc : string) : M A := λ w, mkRun [] w (Uncaught exc).

Definition gets {A} (f : World → A) : M A := λ w, mkRun [] w (Returned (f w)).
Definition modify (f : World → World) : M unit := λ w, mkRun [] (f w) (Returned tt).

(** [if c: body] *)
Definition when (c : bool) (body : M unit) : M unit := if c then body else ret tt.

(** [for x in l: body(x)] *)
Fixpoint for_each {A} (l : list A) (body : A → M unit) : M unit :=
  match l with
  | [] => ret tt
  | x :: l' => bind (body x) (λ _, for_each l' body)
  end.

(** [subprocess.run(cmd, cwd=cwd, ...)]: the child runs to completion;
    its return code and what it wrote on its standard output are handed
    to the caller, who captures, redirects or drops the output. *)
Definition subprocess_run (E : Env) (cmd : list string) (cwd : string) : M (Z * string) := λ w,
  let c := subprocess E cmd cwd w in
  mkRun [Exec cmd cwd (child_returncode c)] (child_world c)
        (Returned (child_returncode c, child_stdout c)).

(** [dir.glob("*.patch")], as file names; nothing when [dir] is missing.
    The names come in the order in which the map lists them, which
    stands for the order of the directory, whatever that is. *)
Definition is_patch (name : string) : bool := Py.endswith name ".patch".
Definition glob_patch (d : option (gmap string string)) : list string :=
  match d with
  | Some files => filter (λ name, is_patch name = true) (map_to_list files).*1
  | None => []
  end.

End World.

Global Arguments World : clear implicits.
Global Arguments Child : clear implicits.
Global Arguments Env : clear implicits.
Global Arguments Run : clear implicits.
Global Arguments M : clear implicits.

Global Instance M_ret {Repo} : MRet (M Repo) := @ret Repo.
Global Instance M_bind {Repo} : MBind (M Repo) := λ A B k m, bind m k.

(** [subprocess.CompletedProcess]: [stdout] is [None] unless captured. *)
Record CompletedProcess : Type := mkCompleted {
  returncode : Z;
  stdout : option string;
}.

(** ** scripts/apply_patches.py *)

Module apply_patches.
Section Script.
Context {Repo : Type} (E : Env Repo).

(** [Path(__file__).name] *)
Definition script_name : string := "apply_patches.py".

Definition run_git (args : list string) (cwd : string) (capture check : bool)
  : M Repo CompletedProcess :=
  let cmd := "git" :: args in
  print ("  > " +:+ Py.join " " cmd) ;;
  c ← subprocess_run E cmd cwd ;
  let result := mkCompleted c.1 (if capture then Some c.2 else None) in
  when (check && negb (returncode result =? 0)%Z)
    (print ("Command failed with exit code " +:+ Py.str_int (returncode result)) ;;
     sys_exit 1) ;;
  mret result.

Definition print_header (step total : Z) (message : string) : M Repo unit :=
  print ("[" +:+ Py.str_int step +:+ "/" +:+ Py.str_int total +:+ "] " +:+ message).

Definition load_base_commit : M Repo string :=
  file ← gets base_commit_file ;
  match file with
  | None => sys_exit_msg ("Error: " +:+ BASE_COMMIT_FILE E +:+ " not found!")
  | Some text =>
      let commit := Py.strip text in
      when (bool_decide (commit = "") || bool_decide (Py.len commit < 7))
        (sys_exit_msg "Error: BASE_COMMIT.txt is empty or invalid!") ;;
      mret commit
  end.

Definition validate_eden_repo (eden_repo expected_commit : string) : M Repo unit :=
  has_git ← gets (λ w, bool_decide (eden_repo ∈ dot_git w)) ;
  when (negb has_git)
    (sys_exit_msg
       ("Error: '" +:+ eden_repo +:+ "' is not a git repository!" +:+ Py.LF +:+ Py.LF
        +:+ "Usage:" +:+ Py.LF
        +:+ "  python " +:+ script_name +:+ " <path-to-eden-repo>")) ;;
  result ← run_git ["cat-file"; "-t"; expected_commit] eden_repo true false ;
  when (negb (returncode result =? 0)%Z)
    (sys_exit_msg
       ("Error: Commit " +:+ Py.slice_to 12 expected_commit
        +:+ " not found in repository." +:+ Py.LF
        +:+ "  Try running 'git fetch' in your eden repo to update.")).

(** Step 4 of [main] (the lines from the last header to the end of the
    function), under a name so that statements can speak of the state
    in which it starts. *)
Definition apply_step (eden_repo : string) : M Repo unit :=
  print_header 4 4 "Applying patches..." ;;
  patch_files ← gets (λ w, Py.sorted (glob_patch (patches_dir w))) ;
  match patch_files with
  | [] =>
      print "  No patches found in patches/ directory." ;;
      print "Done! (No patches to apply)"
  | _ =>
      print ("  Found " +:+ Py.str_len (length patch_files) +:+ " patch(es)") ;;
      c ← subprocess_run E
            (["git"; "am"; "--3way"] ++ (Py.joinpath (PATCHES_DIR E) <$> patch_files))
            eden_repo ;
      if negb (c.1 =? 0)%Z then
        print (Py.LF +:+ Py.times "=" 60) ;;
        print "ERROR: Patch application failed!" ;;
        print (Py.times "=" 60) ;;
        print ("To abort and reset: cd " +:+ eden_repo +:+ " && git am --abort") ;;
        print "To resolve manually: fix conflicts, git add, git am --continue" ;;
        sys_exit 1
      else
        print (Py.LF +:+ Py.times "=" 60) ;;
        print "SUCCESS! All patches applied." ;;
        print (Py.times "=" 60) ;;
        print ("Source is ready in: " +:+ eden_repo) ;;
        print "You can now build following standard eden instructions."
  end.

Definition usage : string :=
  "Usage: python " +:+ script_name +:+ " <path-to-eden-repo>" +:+ Py.LF +:+ Py.LF
  +:+ "Example:" +:+ Py.LF
  +:+ "  python " +:+ script_name +:+ " ../eden" +:+ Py.LF
  +:+ "  python " +:+ script_name +:+ " C:\path\to\eden".

Definition main (argv : list string) : M Repo unit :=
  when (bool_decide (length argv < 2)) (sys_exit_msg usage) ;;
  let eden_repo := resolve E (nth 1 argv "") in
  print ("Eden repo:   " +:+ eden_repo) ;;
  print ("Patch repo:  " +:+ PATCH_REPO E) ;;
  print "" ;;
  print_header 1 4 "Loading BASE_COMMIT.txt..." ;;
  expected_commit ← load_base_commit ;
  print ("  Expected commit: " +:+ Py.slice_to 12 expected_commit +:+ "...") ;;
  validate_eden_repo eden_repo expected_commit ;;
  print_header 2 4 "Checking out base commit..." ;;
  run_git ["checkout"; "-f"; expected_commit] eden_repo false true ;;
  run_git ["clean"; "-fdx"] eden_repo false true ;;
  print_header 3 4 "Creating patched-release branch..." ;;
  subprocess_run E ["git"; "branch"; "-D"; "patched-release"] eden_repo ;;
  run_git ["checkout"; "-b"; "patched-release"] eden_repo false true ;;
  apply_step eden_repo.

(** The module body: the guard [if __name__ == "__main__": main()]
    stands twice at the end of the file, so [main] is called, and when
    it returns it is called again. *)
Definition script (argv : list string) : M Repo unit :=
  main argv ;; main argv.

End Script.
End apply_patches.

(** ** scripts/export_patches.py *)

Module export_patches.
Section Script.
Context {Repo : Type} (E : Env Repo).

Definition UPSTREAM_REMOTE : string := "gitlab".
Definition UPSTREAM_BRANCH : string := "master".

(** [Path(__file__).name] *)
Definition script_name : string := "export_patches.py".

Definition run_git (args : list string) (cwd : string) (capture check : bool)
  : M Repo CompletedProcess :=
  let cmd := "git" :: args in
  print ("  > " +:+ Py.join " " cmd) ;;
  c ← subprocess_run E cmd cwd ;
  let result := mkCompleted c.1 (if capture then Some c.2 else None) in
  when (check && negb (returncode result =? 0)%Z)
    (sys_exit_msg ("Command failed with exit code " +:+ Py.str_int (returncode result))) ;;
  mret result.

Definition print_header (step total : Z) (message : string) : M Repo unit :=
  print ("[" +:+ Py.str_int step +:+ "/" +:+ Py.str_int total +:+ "] " +:+ message).

Definition print_done (patch_count : nat) : M Repo unit :=
  print "" ;;
  print (Py.times "=" 60) ;;
  print "DONE!" ;;
  print (Py.times "=" 60) ;;
  print ("  Patches exported: " +:+ Py.str_len patch_count) ;;
  print ("  Location: " +:+ PATCHES_DIR E) ;;
  print "" ;;
  print "Next steps:" ;;
  print "  1. Review the generated patches" ;;
  print "  2. Commit and push to puni-patcher repo".

(** [PATCHES_DIR.mkdir(parents=True, exist_ok=True)] *)
Definition mkdir_patches (w : World Repo) : World Repo :=
  match patches_dir w with
  | None => set_patches_dir (Some ∅) w
  | Some _ => w
  end.

(** [f.unlink()] for a file [f] of the patches directory.  The
    directory is modelled as holding regular files only; on an entry
    that is itself a directory the real call raises
    [IsADirectoryError], which is outside this model. *)
Definition unlink (name : string) : M Repo unit :=
  dir ← gets patches_dir ;
  match dir with
  | Some files =>
      if bool_decide (is_Some (files !! name))
      then modify (set_patches_dir (Some (delete name files)))
      else raise "FileNotFoundError"
  | None => raise "FileNotFoundError"
  end.

Definition clean_old_patches : M Repo unit :=
  print_header 1 5 "Cleaning old patches..." ;;
  modify mkdir_patches ;;
  old_patches ← gets (λ w, glob_patch (patches_dir w)) ;
  for_each old_patches (λ f, unlink f ;; print ("  Removed: " +:+ f)) ;;
  when (bool_decide (old_patches = [])) (print "  (No old patches to remove)").

Definition diff_range : string := UPSTREAM_REMOTE +:+ "/" +:+ UPSTREAM_BRANCH +:+ "..HEAD".

Definition format_patch_args : list string :=
  ["format-patch"; "--no-numbered"; "--no-signature"; "--start-number"; "1";
   "-o"; PATCHES_DIR E; diff_range].

Definition generate_patches (eden_repo : string) : M Repo unit :=
  print_header 2 5 "Generating patches (git format-patch)..." ;;
  run_git format_patch_args eden_repo false true ;;
  mret tt.

Definition generate_preview_diff (eden_repo : string) : M Repo unit :=
  print_header 3 5 "Generating preview.diff..." ;;
  modify (set_preview_diff (Some "")) ;;                 (* open(PREVIEW_DIFF, "w") *)
  c ← subprocess_run E ["git"; "diff"; diff_range] eden_repo ;
  modify (set_preview_diff (Some c.2)) ;;                (* stdout=f *)
  print ("  Written: " +:+ PREVIEW_DIFF E).

(** What the loop of [f.write] calls leaves in the series file. *)
Definition series_text (patch_files : list string) : string :=
  foldr (λ patch rest, patch +:+ Py.LF +:+ rest) "" patch_files.

Definition generate_series_file : M Repo (list string) :=
  print_header 4 5 "Generating patches/series..." ;;
  patch_files ← gets (λ w, Py.sorted (glob_patch (patches_dir w))) ;
  let series_file := Py.joinpath (PATCHES_DIR E) "series" in
  dir ← gets patches_dir ;
  match dir with
  | Some files =>
      modify (set_patches_dir (Some (<["series" := series_text patch_files]> files)))
  | None => raise "FileNotFoundError"
  end ;;
  print ("  Written: " +:+ series_file +:+ " (" +:+ Py.str_len (length patch_files)
         +:+ " patches)") ;;
  mret patch_files.

Definition update_base_commit (eden_repo : string) : M Repo unit :=
  print_header 5 5 "Updating BASE_COMMIT.txt..." ;;
  result ← run_git ["rev-parse"; UPSTREAM_REMOTE +:+ "/" +:+ UPSTREAM_BRANCH]
             eden_repo true false ;
  if negb (returncode result =? 0)%Z then
    print "  Warning: Could not get upstream commit hash"
  else
    match stdout result with
    | Some out =>
        let new_commit := Py.strip out in
        modify (set_base_commit_file (Some (new_commit +:+ Py.LF))) ;;
        print ("  Updated commit: " +:+ new_commit)
    | None => raise "AttributeError"
    end.

Definition validate_eden_repo (eden_repo : string) : M Repo unit :=
  has_git ← gets (λ w, bool_decide (eden_repo ∈ dot_git w)) ;
  when (negb has_git)
    (sys_exit_msg
       ("Error: '" +:+ eden_repo +:+ "' is not a git repository!" +:+ Py.LF +:+ Py.LF
        +:+ "Usage:" +:+ Py.LF
        +:+ "  python " +:+ script_name +:+ " [path-to-eden-repo]" +:+ Py.LF
        +:+ "  python " +:+ script_name +:+ "  # uses current directory")) ;;
  result ← run_git ["remote"; "get-url"; UPSTREAM_REMOTE] eden_repo true false ;
  when (negb (returncode result =? 0)%Z)
    (sys_exit_msg
       ("Error: No '" +:+ UPSTREAM_REMOTE +:+ "' remote found in eden repo." +:+ Py.LF
        +:+ "  Add a remote named '" +:+ UPSTREAM_REMOTE
        +:+ "' pointing to your upstream.")).

Definition eden_repo_of (argv : list string) : string :=
  if bool_decide (2 ≤ length argv) then resolve E (nth 1 argv "") else getcwd E.

Definition main (argv : list string) : M Repo unit :=
  let eden_repo := eden_repo_of argv in
  print ("Eden repo:   " +:+ eden_repo) ;;
  print ("Patch repo:  " +:+ PATCH_REPO E) ;;
  print "" ;;
  validate_eden_repo eden_repo ;;
  clean_old_patches ;;
  generate_patches eden_repo ;;
  generate_preview_diff eden_repo ;;
  patch_files ← generate_series_file ;
  update_base_commit eden_repo ;;
  print_done (length patch_files).

End Script.
End export_patches.

(** ** A small concrete environment

    A stand-in for [git] that answers every command with the return code
    stored in the repository state, prints a fixed diff and upstream
    hash, and writes one file per commit for [format-patch].  It is used
    to run the scripts on concrete inputs. *)

Module Demo.

Record Repo : Type := mkRepo {
  status : Z;                      (* the return code of every command *)
  commits : gmap string string;    (* the patch files format-patch writes *)
  diff_text : string;              (* what git diff prints *)
  upstream : string;               (* what git rev-parse prints, without the newline *)
}.

Definition git (cmd : list string) (cwd : string) (w : World Repo) : Child Repo :=
  let r := repos w in
  if bool_decide (cmd !! 1 = Some "format-patch") then
    mkChild (status r) ""
      (if bool_decide (status r = 0%Z)
       then set_patches_dir (Some (commits r ∪ default ∅ (patches_dir w))) w
       else w)
  else if bool_decide (cmd !! 1 = Some "diff") then mkChild (status r) (diff_text r) w
  else if bool_decide (cmd !! 1 = Some "rev-parse") then
    mkChild (status r) (upstream r +:+ Py.LF) w
  else mkChild (status r) "" w.

Definition env : Env Repo :=
  mkEnv git (λ p, Py.joinpath "/home/user" p) "/home/user" "/home/user/puni-patcher".

Definition hash : string := "0123456789abcdef0123456789abcdef01234567".

Definition fork (st : Z) : Repo :=
  mkRepo st {[ "0001-a.patch" := "first"; "0002-b.patch" := "second" ]}
         ("diff --git a/f b/f" +:+ Py.LF) hash.

(** A patch repository with three patches and the series file, next to
    a checkout of eden. *)
Definition world (st : Z) : World Repo :=
  mkWorld (Some (hash +:+ Py.LF))
          (Some {[ "0002-b.patch" := "second"; "0003-c.patch" := "third";
                   "0001-a.patch" := "first"; "series" := "" ]})
          None {[ "/home/user/eden" ]} (fork st).

Definition argv : list string := ["apply_patches.py"; "eden"].

Definition eden : string := "/home/user/eden".

(** The same with a base commit of six characters. *)
Definition short_world : World Repo := set_base_commit_file (Some "abc123") (world 0).


(** A [git] like the one above, except that the subcommands listed in
    [bad] return 1, print nothing and do nothing. *)
Definition flaky_git (bad : list string) (cmd : list string) (cwd : string)
    (w : World Repo) : Child Repo :=
  if bool_decide (default "" (cmd !! 1) ∈ bad) then mkChild 1 "" w
  else git cmd cwd w.

Definition flaky_env (bad : list string) : Env Repo :=
  mkEnv (flaky_git bad) (λ p, Py.joinpath "/home/user" p) "/home/user"
        "/home/user/puni-patcher".

(** A [git] whose repository state is a number: while it is positive a
    command succeeds and counts it down; from then on every command
    fails with 128. *)
Definition budget_git (cmd : list string) (cwd : string) (w : World nat) : Child nat :=
  match repos w with
  | O => mkChild 128 "" w
  | S n =>
      mkChild 0 "" (mkWorld (base_commit_file w) (patches_dir w) (preview_diff w)
                            (dot_git w) n)
  end.

Definition budget_env : Env nat :=
  mkEnv budget_git (λ p, Py.joinpath "/home/user" p) "/home/user" "/home/user/puni-patcher".

(** A patch repository without patch files, next to a checkout of eden
    in which the next [n] commands succeed. *)
Definition budget_world (n : nat) : World nat :=
  mkWorld (Some (hash +:+ Py.LF)) (Some {[ "series" := "" ]}) None
          {[ "/home/user/eden" ]} n.

End Demo.

(** ** Vocabulary of the statements *)

(** BASE_COMMIT.txt is absent, empty once trimmed, or shorter than seven
    characters (before or after trimming). *)
Definition base_commit_unusable (file : option string) : Prop :=
  match file with
  | None => True
  | Some text => Py.strip text = "" ∨ Py.len text < 7 ∨ Py.len (Py.strip text) < 7
  end.

(** [needle] occurs in [text]. *)
Definition contains (text needle : string) : Prop :=
  ∃ before after, text = before +:+ needle +:+ after.

(** [r] with the events [t] in front. *)
Definition prepend {Repo A} (t : list Event) (r : Run Repo A) : Run Repo A :=
  mkRun (t ++ trace r) (final r) (outcome r).

(** [cmd] is a [git am] command. *)
Definition is_am (cmd : list string) : Prop := ∃ more, cmd = "git" :: "am" :: more.

(** The trace of a run of the importer's [main] that ended before step 4:
    it is not empty and shows neither the header of step 4, nor the
    closing line of the no-patches case, nor a [git am] command. *)
Definition stops_early (t : list Event) : Prop :=
  t ≠ []
  ∧ Forall (λ e, e ≠ Stdout "[4/4] Applying patches..."
               ∧ e ≠ Stdout "Done! (No patches to apply)"
               ∧ ∀ cmd cwd rc, is_am cmd → e ≠ Exec cmd cwd rc) t.

(** What the importer prints when [git am] fails, and when it succeeds. *)
Definition failure_report (eden_repo : string) : list Event :=
  [Stdout (Py.LF +:+ Py.times "=" 60);
   Stdout "ERROR: Patch application failed!";
   Stdout (Py.times "=" 60);
   Stdout ("To abort and reset: cd " +:+ eden_repo +:+ " && git am --abort");
   Stdout "To resolve manually: fix conflicts, git add, git am --continue"].

Definition success_report (eden_repo : string) : list Event :=
  [Stdout (Py.LF +:+ Py.times "=" 60);
   Stdout "SUCCESS! All patches applied.";
   Stdout (Py.times "=" 60);
   Stdout ("Source is ready in: " +:+ eden_repo);
   Stdout "You can now build following standard eden instructions."].

(** The world after the exporter's first step: patches/ exists and holds
    the files it held that are not patch files. *)
Definition cleaned {Repo} (w : World Repo) : World Repo :=
  set_patches_dir
    (Some (filter (λ file : string * string, is_patch file.1 = false)
                  (default ∅ (patches_dir w)))) w.

(** The exporter's [main] from [generate_patches] on. *)
Definition after_cleaning {Repo} (E : Env Repo) (eden_repo : string) : M Repo unit :=
  export_patches.generate_patches E eden_repo ;;
  export_patches.generate_preview_diff E eden_repo ;;
  patch_files ← export_patches.generate_series_file E ;
  export_patches.update_base_commit E eden_repo ;;
  export_patches.print_done E (length patch_files).

(** The series file, if patches/ and the file exist. *)
Definition series_file {Repo} (w : World Repo) : option string :=
  files ← patches_dir w ; files !! "series".

(** [h] neither starts nor ends with a whitespace character. *)
Definition trimmed (h : string) : Prop :=
  (∀ c rest, h = String c rest → Py.isspace c = false)
  ∧ (∀ front c, h = front +:+ String c "" → Py.isspace c = false).

(** The commands the exporter runs in the fork. *)
Definition exporter_commands {Repo} (E : Env Repo) : list (list string) :=
  [ ["git"; "remote"; "get-url"; "gitlab"];
    "git" :: export_patches.format_patch_args E;
    ["git"; "diff"; "gitlab/master..HEAD"];
    ["git"; "rev-parse"; "gitlab/master"] ].

(** Two worlds in which git sees the same repositories. *)
Definition same_repositories {Repo} (w w' : World Repo) : Prop :=
  repos w = repos w' ∧ dot_git w = dot_git w'.

(** The exporter's commands leave the repositories, BASE_COMMIT.txt and
    preview.diff as they are, and only [format-patch] writes into
    patches/. *)
Definition reads_only {Repo} (E : Env Repo) (eden_repo : string) : Prop :=
  ∀ cmd w, cmd ∈ exporter_commands E →
    let w' := child_world (subprocess E cmd eden_repo w) in
    same_repositories w' w
    ∧ base_commit_file w' = base_commit_file w
    ∧ preview_diff w' = preview_diff w
    ∧ (cmd ≠ "git" :: export_patches.format_patch_args E → patches_dir w' = patches_dir w).

(** The return code and the output of the exporter's commands are
    determined by the repositories. *)
Definition repeatable {Repo} (E : Env Repo) (eden_repo : string) : Prop :=
  ∀ cmd w w', cmd ∈ exporter_commands E → same_repositories w w' →
    child_returncode (subprocess E cmd eden_repo w)
    = child_returncode (subprocess E cmd eden_repo w')
    ∧ child_stdout (subprocess E cmd eden_repo w)
      = child_stdout (subprocess E cmd eden_repo w').

(** Started twice on the same repositories with a patches directory that
    holds no patch file, [format-patch] leaves patch files of the same
    names. *)
Definition format_patch_repeatable {Repo} (E : Env Repo) (eden_repo : string) : Prop :=
  ∀ w w', same_repositories w w' →
    is_Some (patches_dir w) → is_Some (patches_dir w') →
    glob_patch (patches_dir w) = [] → glob_patch (patches_dir w') = [] →
    let after w0 :=
      patches_dir (child_world
        (subprocess E ("git" :: export_patches.format_patch_args E) eden_repo w0)) in
    glob_patch (after w) ≡ₚ glob_patch (after w')
    ∧ (is_Some (after w) → is_Some (after w')).

(** The computation [m] keeps the property [P] of the world. *)
Definition keeps {Repo A} (P : World Repo → Prop) (m : M Repo A) : Prop :=
  ∀ w, P w → P (final (m w)).

(** The commands the importer runs in the target before [git am], for
    the base commit [commit]. *)
Definition importer_commands (commit : string) : list (list string) :=
  [ ["git"; "cat-file"; "-t"; commit];
    ["git"; "checkout"; "-f"; commit];
    ["git"; "clean"; "-fdx"];
    ["git"; "branch"; "-D"; "patched-release"];
    ["git"; "checkout"; "-b"; "patched-release"] ].

(** [cmd] is one of the commands the importer runs in the target. *)
Definition importer_command {Repo} (E : Env Repo) (cmd : list string) : Prop :=
  (∃ commit, cmd ∈ importer_commands commit)
  ∨ (∃ names, cmd = ["git"; "am"; "--3way"] ++ (Py.joinpath (PATCHES_DIR E) <$> names)).

(** ** Facts about the string operations *)

Global Arguments Py.str_int : simpl never.
Global Arguments Py.str_len : simpl never.
Global Arguments Py.sorted : simpl never.
Global Arguments Py.joinpath : simpl never.
Global Arguments Py.times : simpl never.
Global Arguments Py.join : simpl never.
Global Arguments Py.strip : simpl never.
Global Arguments Py.slice_to : simpl never.
Global Arguments Py.len : simpl never.

Module PyFacts.
Import Py.

Lemma lstrip_length s : String.length (lstrip s) ≤ String.length s.
Proof. induction s as [|c s IH]; simpl; [lia|]. destruct (isspace c); simpl; lia. Qed.

Lemma rstrip_length s : String.length (rstrip s) ≤ String.length s.
Proof.
  induction s as [|c s IH]; simpl; [lia|].
  destruct (rstrip s); [destruct (isspace c)|]; simpl in *; lia.
Qed.

Lemma len_strip s : len (strip s) ≤ len s.
Proof.
  unfold len, strip. etrans; [apply rstrip_length|apply lstrip_length].
Qed.

(** Appending one whitespace character changes nothing for [rstrip]. *)
Lemma rstrip_app_space s c :
  isspace c = true → rstrip (s +:+ String c "") = rstrip s.
Proof.
  intros Hc. induction s as [|a s IH].
  - change ("" +:+ String c "") with (String c ""). simpl. by rewrite Hc.
  - change (String a s +:+ String c "") with (String a (s +:+ String c "")).
    simpl. rewrite IH. done.
Qed.

(** A string is left alone by [rstrip] when its last character, if
    there is one, is not whitespace. *)
Lemma rstrip_id s :
  (∀ s' c, s = s' +:+ String c "" → isspace c = false) → rstrip s = s.
Proof.
  induction s as [|a s IH]; intros Hlast; [done|].
  simpl. destruct s as [|b s].
  - simpl. rewrite (Hlast "" a); done.
  - rewrite IH; [done|].
    intros s' c Hs. apply (Hlast (String a s') c).
    change (String a s' +:+ String c "") with (String a (s' +:+ String c "")).
    by rewrite Hs.
Qed.

(** The sorted list is in ascending order and has the same elements. *)
Lemma sorted_ascending l : StronglySorted String.le (sorted l).
Proof. apply StronglySorted_merge_sort; apply _. Qed.

Lemma sorted_Permutation l : sorted l ≡ₚ l.
Proof. apply merge_sort_Permutation. Qed.

Lemma sorted_nil_iff l : sorted l = [] ↔ l = [].
Proof.
  split.
  - intros H. apply Permutation_nil_r. rewrite <- H. symmetry. apply sorted_Permutation.
  - intros ->. reflexivity.
Qed.

(** Two listings of the same names sort to the same list. *)
Lemma sorted_unique l1 l2 : l1 ≡ₚ l2 → sorted l1 = sorted l2.
Proof.
  intros H. apply (Sorted_unique String.le).
  - apply Sorted_merge_sort; apply _.
  - apply Sorted_merge_sort; apply _.
  - by rewrite !sorted_Permutation.
Qed.

Lemma length_app s1 s2 :
  String.length (s1 +:+ s2) = String.length s1 + String.length s2.
Proof.
  induction s1 as [|c s1 IH]; [done|].
  change (String c s1 +:+ s2) with (String c (s1 +:+ s2)). simpl. by rewrite IH.
Qed.

(** A string that [lstrip] and [rstrip] leave alone has no whitespace at
    either end. *)
Lemma trimmed_of_strip h : lstrip h = h → rstrip h = h → trimmed h.
Proof.
  intros Hl Hr. split.
  - intros c rest ->. destruct (isspace c) eqn:Hc; [|done].
    simpl in Hl. rewrite Hc in Hl.
    pose proof (lstrip_length rest) as Hlen. rewrite Hl in Hlen. simpl in Hlen. lia.
  - intros front c ->. destruct (isspace c) eqn:Hc; [|done].
    rewrite rstrip_app_space in Hr by done.
    pose proof (rstrip_length front) as Hlen. rewrite Hr, length_app in Hlen.
    simpl in Hlen. lia.
Qed.

End PyFacts.

(** ** Running the scripts symbolically *)

Ltac unfold_monad :=
  unfold mbind, M_bind, mret, M_ret, bind, ret, when, gets, modify, print,
    sys_exit_msg, sys_exit, raise, subprocess_run.

(** Name the return code, output and world of the next child process. *)
Ltac call_child :=
  match goal with
  | |- context [subprocess ?E ?c ?d ?w] =>
      let rc := fresh "rc" in
      let out := fresh "out" in
      let w' := fresh "w" in
      let H := fresh "Hchild" in
      destruct (subprocess E c d w) as [rc out w'] eqn:H; simpl
  end.

Ltac on_returncode :=
  match goal with
  | |- context [(?rc =? 0)%Z] =>
      let H := fresh "Hrc" in
      destruct (Z.eqb_spec rc 0) as [H|H]; simpl
  end.

(** Two events differ: by their kind, or by the first characters of
    their texts. *)
Ltac event_neq :=
  let H := fresh in
  intros H; try discriminate H; injection H as H; vm_compute in H; discriminate H.

(** An event is not a [git am] command. *)
Ltac not_am :=
  let H := fresh in
  intros ? ? ? [? ->] H; discriminate H.

(** Go through the events a command may be equal to, keeping the
    commands. *)
Ltac find_command H :=
  repeat match type of H with
    | _ ∨ _ => destruct H as [H|H]
    | False => destruct H
    | Exec _ _ _ = Stdout _ => discriminate H
    | Exec _ _ _ = Stderr _ => discriminate H
    end.

Ltac early_exit :=
  left; split; [done|]; split; [done|];
  repeat constructor; first [not_am | event_neq].

(** ** Facts about the monad *)

Section MonadFacts.
Context {Repo : Type}.
Implicit Types (w : World Repo).

Lemma bind_run {A B} (m : M Repo A) (k : A → M Repo B) w :
  (m ≫= k) w =
    match outcome (m w) with
    | Returned a => prepend (trace (m w)) (k a (final (m w)))
    | SysExit status => mkRun (trace (m w)) (final (m w)) (SysExit status)
    | Uncaught exc => mkRun (trace (m w)) (final (m w)) (Uncaught exc)
    end.
Proof.
  unfold mbind, M_bind, bind, prepend.
  destruct (m w) as [t w' [a|status|exc]]; simpl; [|done..].
  by destruct (k a w').
Qed.

Lemma bind_print {B} text (k : unit → M Repo B) w :
  (print text ≫= k) w = prepend [Stdout text] (k tt w).
Proof. by rewrite bind_run. Qed.

Lemma prepend_prepend {A} t1 t2 (r : Run Repo A) :
  prepend t1 (prepend t2 r) = prepend (t1 ++ t2) r.
Proof. unfold prepend. simpl. by rewrite app_assoc. Qed.

Lemma prepend_run {A} t1 t2 w (o : Outcome A) :
  prepend t1 (mkRun t2 w o) = mkRun (t1 ++ t2) w o.
Proof. done. Qed.

Lemma commands_app t1 t2 : commands (t1 ++ t2) = commands t1 ++ commands t2.
Proof. apply omap_app. Qed.

Lemma commands_printed {A} (text : A → string) l :
  commands ((λ x, Stdout (text x)) <$> l) = [].
Proof. by induction l. Qed.
End MonadFacts.

(** ** The importer *)

Section Importer.
Context {Repo : Type}.
Implicit Types (E : Env Repo) (w : World Repo).
Import apply_patches.

Lemma load_base_commit_run E w :
  load_base_commit E w =
    match base_commit_file w with
    | None =>
        mkRun [Stderr ("Error: " +:+ BASE_COMMIT_FILE E +:+ " not found!")] w (SysExit 1)
    | Some text =>
        if bool_decide (Py.strip text = "") || bool_decide (Py.len (Py.strip text) < 7)
        then mkRun [Stderr "Error: BASE_COMMIT.txt is empty or invalid!"] w (SysExit 1)
        else mkRun [] w (Returned (Py.strip text))
    end.
Proof.
  unfold load_base_commit. unfold_monad. simpl.
  destruct (base_commit_file w); [|done]. simpl.
  by destruct (_ || _).
Qed.

Lemma unusable_rejected text :
  base_commit_unusable (Some text) →
  bool_decide (Py.strip text = "") || bool_decide (Py.len (Py.strip text) < 7) = true.
Proof.
  intros [H|[H|H]]; apply orb_true_iff.
  - left. by apply bool_decide_eq_true.
  - right. apply bool_decide_eq_true. pose proof (PyFacts.len_strip text). lia.
  - right. by apply bool_decide_eq_true.
Qed.

Lemma importer_run_git_run E args cwd capture check w :
  run_git E args cwd capture check w =
    let c := subprocess E ("git" :: args) cwd w in
    let rc := child_returncode c in
    if check && negb (rc =? 0)%Z then
      mkRun [Stdout ("  > " +:+ Py.join " " ("git" :: args));
             Exec ("git" :: args) cwd rc;
             Stdout ("Command failed with exit code " +:+ Py.str_int rc)]
            (child_world c) (SysExit 1)
    else
      mkRun [Stdout ("  > " +:+ Py.join " " ("git" :: args)); Exec ("git" :: args) cwd rc]
            (child_world c)
            (Returned (mkCompleted rc (if capture then Some (child_stdout c) else None))).
Proof.
  unfold run_git. unfold_monad. simpl.
  by destruct (check && negb (child_returncode _ =? 0)%Z).
Qed.

Lemma apply_step_run E eden w :
  apply_step E eden w =
    let names := Py.sorted (glob_patch (patches_dir w)) in
    match names with
    | [] =>
        mkRun [Stdout "[4/4] Applying patches...";
               Stdout "  No patches found in patches/ directory.";
               Stdout "Done! (No patches to apply)"] w (Returned tt)
    | _ :: _ =>
        let cmd := ["git"; "am"; "--3way"] ++ (Py.joinpath (PATCHES_DIR E) <$> names) in
        let c := subprocess E cmd eden w in
        let start :=
          [Stdout "[4/4] Applying patches...";
           Stdout ("  Found " +:+ Py.str_len (length names) +:+ " patch(es)");
           Exec cmd eden (child_returncode c)] in
        if negb (child_returncode c =? 0)%Z
        then mkRun (start ++ failure_report eden) (child_world c) (SysExit 1)
        else mkRun (start ++ success_report eden) (child_world c) (Returned tt)
    end.
Proof.
  unfold apply_step, print_header. unfold_monad. simpl.
  destruct (Py.sorted _) as [|name names]; [done|]. simpl.
  by destruct (negb _).
Qed.

(** A run of [main] either stops before step 4 with status 1, or gets
    through the checks and the four preparing commands and goes on with
    step 4. *)
Lemma importer_main_cases E argv w :
  let r := main E argv w in
  let eden := resolve E (nth 1 argv "") in
  (outcome r = SysExit 1 ∧ stops_early (trace r))
  ∨ ∃ text w1 w2 w3 rcD w4 w5 out1 out2 out3 outD out5,
      let commit := Py.strip text in
      base_commit_file w = Some text
      ∧ subprocess E ["git"; "cat-file"; "-t"; commit] eden w = mkChild 0 out1 w1
      ∧ subprocess E ["git"; "checkout"; "-f"; commit] eden w1 = mkChild 0 out2 w2
      ∧ subprocess E ["git"; "clean"; "-fdx"] eden w2 = mkChild 0 out3 w3
      ∧ subprocess E ["git"; "branch"; "-D"; "patched-release"] eden w3 = mkChild rcD outD w4
      ∧ subprocess E ["git"; "checkout"; "-b"; "patched-release"] eden w4 = mkChild 0 out5 w5
      ∧ r = prepend
              [Stdout ("Eden repo:   " +:+ eden);
               Stdout ("Patch repo:  " +:+ PATCH_REPO E);
               Stdout "";
               Stdout "[1/4] Loading BASE_COMMIT.txt...";
               Stdout ("  Expected commit: " +:+ Py.slice_to 12 commit +:+ "...");
               Stdout ("  > git cat-file -t " +:+ commit);
               Exec ["git"; "cat-file"; "-t"; commit] eden 0;
               Stdout "[2/4] Checking out base commit...";
               Stdout ("  > git checkout -f " +:+ commit);
               Exec ["git"; "checkout"; "-f"; commit] eden 0;
               Stdout "  > git clean -fdx";
               Exec ["git"; "clean"; "-fdx"] eden 0;
               Stdout "[3/4] Creating patched-release branch...";
               Exec ["git"; "branch"; "-D"; "patched-release"] eden rcD;
               Stdout "  > git checkout -b patched-release";
               Exec ["git"; "checkout"; "-b"; "patched-release"] eden 0]
              (apply_step E eden w5).
Proof.
  intros r eden. subst r.
  unfold main, validate_eden_repo, run_git, print_header. unfold_monad. simpl.
  case_bool_decide; simpl; [early_exit|].
  rewrite load_base_commit_run.
  destruct (base_commit_file w) as [text|] eqn:Hfile; simpl; [|early_exit].
  destruct (_ || _); simpl; [early_exit|].
  case_bool_decide; simpl; [|early_exit].
  call_child. on_returncode; [|early_exit].
  call_child. on_returncode; [|early_exit].
  call_child. on_returncode; [|early_exit].
  call_child. call_child. on_returncode; [|early_exit].
  right. subst. fold eden. fold eden in Hchild, Hchild0, Hchild1, Hchild2, Hchild3.
  eexists text, _, _, _, _, _, _, _, _, _, _, _. simpl.
  split; [done|]. repeat (split; [eassumption|]).
  unfold prepend.
  match goal with |- context [apply_step E ?e ?w] => destruct (apply_step E e w) end.
  reflexivity.
Qed.

(** C1: whenever BASE_COMMIT.txt is absent, empty after trimming or
    shorter than seven characters, the importer exits with status 1
    and a message on stderr, without having started any child process
    and without having changed anything; with a target given on the
    command line the message names the missing file or, for a file
    that is there, says "invalid". *)
Theorem C1_unusable_base_commit_stops_import E argv w :
  base_commit_unusable (base_commit_file w) →
  let r := script E argv w in
  outcome r = SysExit 1 ∧ exit_status (outcome r) = 1%Z
  ∧ commands (trace r) = [] ∧ final r = w
  ∧ ∃ msg, last (trace r) = Some (Stderr msg)
      ∧ (2 ≤ length argv →
         match base_commit_file w with
         | None => msg = "Error: " +:+ BASE_COMMIT_FILE E +:+ " not found!"
         | Some _ => msg = "Error: BASE_COMMIT.txt is empty or invalid!"
                     ∧ contains msg "invalid"
         end).
Proof.
  intros Hbad. unfold script, main. unfold_monad. simpl.
  case_bool_decide as Hargv; simpl.
  { repeat split; eexists; split; [done|lia]. }
  rewrite load_base_commit_run.
  destruct (base_commit_file w) as [text|] eqn:Hfile; simpl.
  - rewrite unusable_rejected by done. simpl.
    repeat split. eexists. repeat split.
    by exists "Error: BASE_COMMIT.txt is empty or ", "!".
  - repeat split. by eexists.
Qed.

Lemma apply_step_head E eden w :
  ∃ rest, trace (apply_step E eden w) = Stdout "[4/4] Applying patches..." :: rest.
Proof.
  rewrite apply_step_run. simpl.
  destruct (Py.sorted _); [by eexists|].
  destruct (negb _); by eexists.
Qed.

(** A run of [main] returns, or it exits with status 1 and the last
    thing it printed is not the closing line of the no-patches case. *)
Lemma importer_main_outcome E argv w :
  let r := main E argv w in
  outcome r = Returned tt
  ∨ (outcome r = SysExit 1 ∧ trace r ≠ []
     ∧ ∃ e, last (trace r) = Some e ∧ e ≠ Stdout "Done! (No patches to apply)").
Proof.
  intros r.
  destruct (importer_main_cases E argv w) as [[Hexit [Hne Hall]]|Hreach]; fold r in Hexit, Hne, Hall || fold r in Hreach.
  - right. split; [done|]. split; [done|].
    destruct (last (trace r)) as [e|] eqn:Hlast.
    + exists e. split; [done|].
      rewrite Forall_forall in Hall. apply Hall. by apply last_Some_elem_of.
    + by apply last_None in Hlast.
  - destruct Hreach as (text & w1 & w2 & w3 & rcD & w4 & w5 & out1 & out2 & out3
                        & outD & out5 & _ & _ & _ & _ & _ & _ & Hr).
    rewrite Hr, apply_step_run. unfold prepend. simpl.
    destruct (Py.sorted _); simpl; [by left|].
    destruct (negb _); simpl; [|by left].
    right. split; [done|]. split; [done|]. eexists. split; [reflexivity|event_neq].
Qed.

(** Every [git am] command of a run of [main] carries a non-empty,
    ascending list of patch files; the run returns when the command
    succeeds and ends with the failure report and status 1 when it
    fails. *)
Lemma importer_main_am E argv w cmd cwd rc :
  let r := main E argv w in
  is_am cmd →
  Exec cmd cwd rc ∈ trace r →
  (∃ names,
     names ≠ [] ∧ StronglySorted String.le names
     ∧ cmd = ["git"; "am"; "--3way"] ++ (Py.joinpath (PATCHES_DIR E) <$> names))
  ∧ (rc = 0%Z → outcome r = Returned tt)
  ∧ (rc ≠ 0%Z →
       outcome r = SysExit 1
       ∧ ∃ before, trace r = before ++ Exec cmd cwd rc :: failure_report cwd).
Proof.
  intros r Ham Hin.
  destruct (importer_main_cases E argv w) as [[Hexit [_ Hall]]|Hreach];
    fold r in Hexit, Hall || fold r in Hreach.
  { rewrite Forall_forall in Hall. destruct (Hall _ Hin) as (_ & _ & Hno).
    by destruct (Hno cmd cwd rc Ham). }
  destruct Hreach as (text & w1 & w2 & w3 & rcD & w4 & w5 & out1 & out2 & out3
                      & outD & out5 & _ & _ & _ & _ & _ & _ & Hr).
  rewrite Hr in Hin |- *. unfold prepend in Hin |- *. cbn [trace outcome] in Hin |- *.
  apply elem_of_app in Hin as [Hin|Hin].
  { destruct Ham as [more ->]. rewrite !elem_of_cons, elem_of_nil in Hin.
    find_command Hin; discriminate Hin. }
  revert Hin. rewrite apply_step_run. cbv zeta.
  destruct (Py.sorted (glob_patch (patches_dir w5))) as [|name names] eqn:Hnames.
  { cbn [trace]. destruct Ham as [more ->]. rewrite !elem_of_cons, elem_of_nil.
    intros Hin. find_command Hin. }
  assert (Hsorted : StronglySorted String.le (name :: names)).
  { rewrite <- Hnames. apply PyFacts.sorted_ascending. }
  set (am := ["git"; "am"; "--3way"] ++ (Py.joinpath (PATCHES_DIR E) <$> name :: names)).
  set (eden := resolve E (nth 1 argv "")).
  destruct (Z.eqb_spec (child_returncode (subprocess E am eden w5)) 0) as [Hrc|Hrc];
    cbn [negb trace outcome].
  - unfold success_report. rewrite elem_of_app, !elem_of_cons, elem_of_nil.
    intros Hin. find_command Hin. injection Hin as -> -> ->.
    split.
    { exists (name :: names). split; [discriminate|]. split; [exact Hsorted|reflexivity]. }
    split; [intros _; reflexivity|]. intros Hne. contradiction.
  - unfold failure_report at 1. rewrite elem_of_app, !elem_of_cons, elem_of_nil.
    intros Hin. find_command Hin. injection Hin as -> -> ->.
    split.
    { exists (name :: names). split; [discriminate|]. split; [exact Hsorted|reflexivity]. }
    split; [intros Heq; contradiction|]. intros _. split; [reflexivity|].
    match goal with
    | |- ∃ before, ?pre ++ [?a; ?b; ?c] ++ ?report = _ => exists (pre ++ [a; b])
    end.
    rewrite <- app_assoc. reflexivity.
Qed.

(** What one call of [main] does with the patch files.  When there are
    some, step 4 hands all of them to one [git am --3way] command, in
    ascending order of their names; that is the only command of the
    step.  When the command returns non-zero the importer prints the
    failure report, whose last two lines are the abort-and-reset and the
    resolve-and-continue hints, and exits with status 1, so that nothing
    that would follow in the script is run.  Every [git am] command the
    process starts has this form, and one that fails is the last thing
    the process does before the failure report and the exit with
    status 1. *)
Lemma importer_batch_am E :
  (∀ eden w,
     glob_patch (patches_dir w) ≠ [] →
     let names := Py.sorted (glob_patch (patches_dir w)) in
     let cmd := ["git"; "am"; "--3way"] ++ (Py.joinpath (PATCHES_DIR E) <$> names) in
     let c := subprocess E cmd eden w in
     let r := apply_step E eden w in
     StronglySorted String.le names ∧ names ≡ₚ glob_patch (patches_dir w)
     ∧ commands (trace r) = [(cmd, eden, child_returncode c)]
     ∧ final r = child_world c
     ∧ (child_returncode c = 0%Z → outcome r = Returned tt)
     ∧ (child_returncode c ≠ 0%Z →
          outcome r = SysExit 1 ∧ exit_status (outcome r) = 1%Z
          ∧ trace r =
              [Stdout "[4/4] Applying patches...";
               Stdout ("  Found " +:+ Py.str_len (length names) +:+ " patch(es)");
               Exec cmd eden (child_returncode c)] ++ failure_report eden
          ∧ ∀ next : unit → M Repo unit,
              let r' := (apply_step E eden ≫= next) w in
              commands (trace r') = [(cmd, eden, child_returncode c)]
              ∧ outcome r' = SysExit 1))
  ∧ (∀ argv w cmd cwd rc,
       let r := script E argv w in
       is_am cmd →
       Exec cmd cwd rc ∈ trace r →
       (∃ names,
          names ≠ [] ∧ StronglySorted String.le names
          ∧ cmd = ["git"; "am"; "--3way"] ++ (Py.joinpath (PATCHES_DIR E) <$> names))
       ∧ (rc ≠ 0%Z →
            outcome r = SysExit 1 ∧ exit_status (outcome r) = 1%Z
            ∧ ∃ before, trace r = before ++ Exec cmd cwd rc :: failure_report cwd)).
Proof.
  split.
  - intros eden w Hfiles. cbv zeta.
    split; [apply PyFacts.sorted_ascending|].
    split; [apply PyFacts.sorted_Permutation|].
    unfold mbind, M_bind, bind. rewrite apply_step_run. cbv zeta.
    destruct (Py.sorted (glob_patch (patches_dir w))) as [|name rest] eqn:Hnames.
    { by apply (proj1 (PyFacts.sorted_nil_iff _)) in Hnames. }
    destruct (Z.eqb_spec (child_returncode
      (subprocess E (["git"; "am"; "--3way"] ++ (Py.joinpath (PATCHES_DIR E) <$> name :: rest))
         eden w)) 0) as [Hrc|Hrc]; simpl.
    + repeat split; done.
    + repeat split; done.
  - intros argv w cmd cwd rc r Ham Hin. subst r. revert Hin.
    unfold script. rewrite bind_run.
    pose proof (importer_main_am E argv w cmd cwd rc Ham) as H1. cbv zeta in H1.
    destruct (outcome (main E argv w)) as [[]|status|exc] eqn:Hout1.
    + unfold prepend. cbn [trace outcome]. intros [Hin|Hin]%elem_of_app.
      * destruct (H1 Hin) as (Hnames & _ & Hfail). split; [exact Hnames|].
        intros Hrc. by destruct (Hfail Hrc).
      * destruct (importer_main_am E argv (final (main E argv w)) cmd cwd rc Ham Hin)
          as (Hnames & _ & Hfail).
        split; [exact Hnames|]. intros Hrc.
        destruct (Hfail Hrc) as (Hexit & before & Htrace).
        rewrite Hexit, Htrace. split; [reflexivity|]. split; [reflexivity|].
        exists (trace (main E argv w) ++ before). by rewrite <- app_assoc.
    + cbn [trace outcome]. intros Hin.
      destruct (H1 Hin) as (Hnames & _ & Hfail). split; [exact Hnames|].
      intros Hrc. destruct (Hfail Hrc) as (Hexit & before & Htrace).
      injection Hexit as ->. split; [reflexivity|]. split; [reflexivity|]. by exists before.
    + cbn [trace outcome]. intros Hin.
      destruct (H1 Hin) as (Hnames & _ & Hfail). split; [exact Hnames|].
      intros Hrc. by destruct (Hfail Hrc).
Qed.

(** What one call of [main] does without patch files: step 4 prints the
    two no-patches lines, starts no command, changes nothing and returns
    without an error; and whenever the last line the whole process
    prints is the closing no-patches line, the process ends with exit
    status 0. *)
Lemma importer_no_patches E :
  (∀ eden w,
     glob_patch (patches_dir w) = [] →
     let r := apply_step E eden w in
     r = mkRun [Stdout "[4/4] Applying patches...";
                Stdout "  No patches found in patches/ directory.";
                Stdout "Done! (No patches to apply)"] w (Returned tt)
     ∧ exit_status (outcome r) = 0%Z)
  ∧ (∀ argv w,
       let r := script E argv w in
       last (trace r) = Some (Stdout "Done! (No patches to apply)") →
       outcome r = Returned tt ∧ exit_status (outcome r) = 0%Z).
Proof.
  split.
  - intros eden w Hnone. cbv zeta. rewrite apply_step_run, Hnone. split; reflexivity.
  - intros argv w. cbv zeta. unfold script, mbind, M_bind, bind.
    pose proof (importer_main_outcome E argv w) as H1. cbv zeta in H1. revert H1.
    destruct (main E argv w) as [t1 w1 o1]. simpl.
    intros [->|(-> & Hne & e & He & Hdiff)].
    + pose proof (importer_main_outcome E argv w1) as H2. cbv zeta in H2. revert H2.
      destruct (main E argv w1) as [t2 w2 o2]. simpl.
      intros [->|(-> & Hne & e & He & Hdiff)]; [done|].
      rewrite last_app, He. intros [= ->]. done.
    + simpl. rewrite He. intros [= ->]. done.
Qed.

(** C10: a run of the importer's [main] that returns has printed the
    header of step 4, and a run that has printed this header, with or
    without patch files to apply, has before it checked out the base
    commit with [-f], run [git clean -fdx], run [git branch -D
    patched-release] (whatever that returned) and created the branch
    with [git checkout -b], the checked commands all with return code 0,
    each command started in the world the one before it left.  Step 4,
    whose first action after the header is to enumerate the patch files,
    starts in the world the branch creation left: what the run prints
    and starts after the header, how it ends and the world it leaves are
    those of step 4 started there.  In particular, when there is no
    patch file then, the run returns and leaves the world as the four
    commands have made it. *)
Theorem C10_target_prepared_before_enumeration E argv w :
  let r := main E argv w in
  let eden := resolve E (nth 1 argv "") in
  (outcome r = Returned tt → Stdout "[4/4] Applying patches..." ∈ trace r)
  ∧ (Stdout "[4/4] Applying patches..." ∈ trace r →
     ∃ text rcD before after,
       let commit := Py.strip text in
       let c1 := subprocess E ["git"; "cat-file"; "-t"; commit] eden w in
       let c2 := subprocess E ["git"; "checkout"; "-f"; commit] eden (child_world c1) in
       let c3 := subprocess E ["git"; "clean"; "-fdx"] eden (child_world c2) in
       let c4 := subprocess E ["git"; "branch"; "-D"; "patched-release"] eden
                   (child_world c3) in
       let c5 := subprocess E ["git"; "checkout"; "-b"; "patched-release"] eden
                   (child_world c4) in
       let step := apply_step E eden (child_world c5) in
       base_commit_file w = Some text
       ∧ commands before = [(["git"; "cat-file"; "-t"; commit], eden, 0%Z)]
       ∧ trace r =
           before ++
           [Stdout "[2/4] Checking out base commit...";
            Stdout ("  > git checkout -f " +:+ commit);
            Exec ["git"; "checkout"; "-f"; commit] eden 0;
            Stdout "  > git clean -fdx";
            Exec ["git"; "clean"; "-fdx"] eden 0;
            Stdout "[3/4] Creating patched-release branch...";
            Exec ["git"; "branch"; "-D"; "patched-release"] eden rcD;
            Stdout "  > git checkout -b patched-release";
            Exec ["git"; "checkout"; "-b"; "patched-release"] eden 0;
            Stdout "[4/4] Applying patches..."] ++ after
       ∧ child_returncode c1 = 0%Z ∧ child_returncode c2 = 0%Z
       ∧ child_returncode c3 = 0%Z ∧ child_returncode c4 = rcD
       ∧ child_returncode c5 = 0%Z
       ∧ trace step = Stdout "[4/4] Applying patches..." :: after
       ∧ outcome r = outcome step ∧ final r = final step
       ∧ (glob_patch (patches_dir (child_world c5)) = [] →
          outcome r = Returned tt ∧ final r = child_world c5
          ∧ after = [Stdout "  No patches found in patches/ directory.";
                     Stdout "Done! (No patches to apply)"])).
Proof.
  intros r eden.
  destruct (importer_main_cases E argv w) as [[Hexit Hearly]|Hreach];
    fold r in Hexit, Hearly || fold r eden in Hreach.
  - split.
    + intros Hret. rewrite Hret in Hexit. discriminate.
    + intros Hin. destruct Hearly as [_ Hall].
      rewrite Forall_forall in Hall. by destruct (Hall _ Hin).
  - destruct Hreach as (text & w1 & w2 & w3 & rcD & w4 & w5 & out1 & out2 & out3
                        & outD & out5 & Hfile & Hc1 & Hc2 & Hc3 & Hc4 & Hc5 & Hr).
    destruct (apply_step_head E eden w5) as [after Hafter].
    assert (Htrace : ∃ before,
      commands before = [(["git"; "cat-file"; "-t"; Py.strip text], eden, 0%Z)]
      ∧ trace r =
          before ++
          [Stdout "[2/4] Checking out base commit...";
           Stdout ("  > git checkout -f " +:+ Py.strip text);
           Exec ["git"; "checkout"; "-f"; Py.strip text] eden 0;
           Stdout "  > git clean -fdx";
           Exec ["git"; "clean"; "-fdx"] eden 0;
           Stdout "[3/4] Creating patched-release branch...";
           Exec ["git"; "branch"; "-D"; "patched-release"] eden rcD;
           Stdout "  > git checkout -b patched-release";
           Exec ["git"; "checkout"; "-b"; "patched-release"] eden 0;
           Stdout "[4/4] Applying patches..."] ++ after).
    { exists [Stdout ("Eden repo:   " +:+ eden);
              Stdout ("Patch repo:  " +:+ PATCH_REPO E);
              Stdout "";
              Stdout "[1/4] Loading BASE_COMMIT.txt...";
              Stdout ("  Expected commit: " +:+ Py.slice_to 12 (Py.strip text) +:+ "...");
              Stdout ("  > git cat-file -t " +:+ Py.strip text);
              Exec ["git"; "cat-file"; "-t"; Py.strip text] eden 0].
      split; [reflexivity|].
      rewrite Hr. unfold prepend. simpl. rewrite Hafter. reflexivity. }
    destruct Htrace as (before & Hcmds & Htrace).
    split.
    + intros _. rewrite Htrace. set_solver.
    + intros _. exists text, rcD, before, after. cbv zeta.
      rewrite Hc1. cbn [child_world child_returncode].
      rewrite Hc2. cbn [child_world child_returncode].
      rewrite Hc3. cbn [child_world child_returncode].
      rewrite Hc4. cbn [child_world child_returncode].
      rewrite Hc5. cbn [child_world child_returncode].
      split; [exact Hfile|]. split; [exact Hcmds|]. split; [exact Htrace|].
      do 5 (split; [reflexivity|]).
      split; [exact Hafter|].
      split; [by rewrite Hr|]. split; [by rewrite Hr|].
      intros Hnone. rewrite Hr. unfold prepend. cbn [outcome final].
      revert Hafter. rewrite apply_step_run. cbv zeta.
      rewrite (proj2 (PyFacts.sorted_nil_iff _) Hnone). cbn [trace outcome final].
      intros [= <-]. repeat split.
Qed.

End Importer.

Lemma C1_witness :
  base_commit_unusable (base_commit_file Demo.short_world)
  ∧ let r := apply_patches.script Demo.env Demo.argv Demo.short_world in
    exit_status (outcome r) = 1%Z ∧ commands (trace r) = []
    ∧ last (trace r) = Some (Stderr "Error: BASE_COMMIT.txt is empty or invalid!").
Proof.
  assert (Hbad : base_commit_unusable (base_commit_file Demo.short_world)).
  { right. left. vm_compute. lia. }
  split; [exact Hbad|]. intros r.
  destruct (C1_unusable_base_commit_stops_import Demo.env Demo.argv _ Hbad)
    as (_ & Hstatus & Hcmds & _ & _).
  split; [exact Hstatus|]. split; [exact Hcmds|]. reflexivity.
Defined.

(** C2, at a concrete input: three patch files, a target with a [.git]
    entry and a [git] that always succeeds.  The guard at the end of
    apply_patches.py stands twice, so [main] runs twice: the process
    prepares the target, starts the batch [git am --3way] with the three
    files in ascending order, and then does both again; it ends with
    status 0 after two batch commands, not one. *)
Theorem C2_batch_am_is_started_twice :
  let r := apply_patches.script Demo.env Demo.argv (Demo.world 0) in
  let prepare :=
    [(["git"; "cat-file"; "-t"; Demo.hash], Demo.eden, 0%Z);
     (["git"; "checkout"; "-f"; Demo.hash], Demo.eden, 0%Z);
     (["git"; "clean"; "-fdx"], Demo.eden, 0%Z);
     (["git"; "branch"; "-D"; "patched-release"], Demo.eden, 0%Z);
     (["git"; "checkout"; "-b"; "patched-release"], Demo.eden, 0%Z)] in
  let am :=
    (["git"; "am"; "--3way";
      "/home/user/puni-patcher/patches/0001-a.patch";
      "/home/user/puni-patcher/patches/0002-b.patch";
      "/home/user/puni-patcher/patches/0003-c.patch"], Demo.eden, 0%Z) in
  Py.sorted (glob_patch (patches_dir (Demo.world 0)))
  = ["0001-a.patch"; "0002-b.patch"; "0003-c.patch"]
  ∧ commands (trace (apply_patches.main Demo.env Demo.argv (Demo.world 0)))
    = prepare ++ [am]
  ∧ commands (trace r) = prepare ++ [am] ++ prepare ++ [am]
  ∧ outcome r = Returned tt ∧ exit_status (outcome r) = 0%Z.
Proof. vm_compute. repeat split. Qed.


Lemma C10_witness :
  let r := apply_patches.main Demo.budget_env Demo.argv (Demo.budget_world 5) in
  outcome r = Returned tt
  ∧ Stdout "[4/4] Applying patches..." ∈ trace r
  ∧ final r = Demo.budget_world 0.
Proof.
  intros r.
  assert (Hret : outcome r = Returned tt) by (vm_compute; reflexivity).
  destruct (C10_target_prepared_before_enumeration Demo.budget_env Demo.argv
              (Demo.budget_world 5)) as [Hreach Hprepared].
  pose proof (Hreach Hret) as Hin.
  split; [exact Hret|]. split; [exact Hin|].
  destruct (Hprepared Hin) as (text & rcD & before & after & H). cbv zeta in H.
  destruct H as (Hfile & _ & _ & _ & _ & _ & _ & _ & _ & _ & _ & Hzero).
  injection Hfile as <-.
  destruct Hzero as (_ & Hfinal & _); [vm_compute; reflexivity|].
  etrans; [exact Hfinal|]. vm_compute. reflexivity.
Defined.

(** ** The exporter *)


Section Exporter.
Context {Repo : Type}.
Implicit Types (E : Env Repo) (w : World Repo).
Import export_patches.

Lemma set_patches_dir_id w files :
  patches_dir w = Some files → set_patches_dir (Some files) w = w.
Proof. destruct w. simpl. by intros ->. Qed.

Lemma elem_of_glob_patch (files : gmap string string) name :
  name ∈ glob_patch (Some files) ↔ is_patch name = true ∧ is_Some (files !! name).
Proof.
  unfold glob_patch. rewrite list_elem_of_filter, list_elem_of_fmap.
  split.
  - intros [Hp ([n text] & -> & Hin)]. split; [done|].
    apply elem_of_map_to_list in Hin. by exists text.
  - intros [Hp [text Hin]]. split; [done|].
    exists (name, text). split; [done|]. by apply elem_of_map_to_list.
Qed.

Lemma NoDup_glob_patch d : NoDup (glob_patch d).
Proof.
  destruct d as [files|]; simpl; [|constructor].
  apply NoDup_filter, NoDup_fst_map_to_list.
Qed.

Lemma glob_patch_filtered (files : gmap string string) :
  foldr delete files (glob_patch (Some files))
  = filter (λ file : string * string, is_patch file.1 = false) files.
Proof.
  apply map_eq. intros name.
  rewrite map_lookup_filter.
  destruct (is_patch name) eqn:Hp.
  - destruct (files !! name) as [text|] eqn:Hfile.
    + rewrite lookup_foldr_delete.
      2:{ apply elem_of_glob_patch. split; [done|]. by exists text. }
      simpl. rewrite option_guard_False; [done|]. simpl. congruence.
    + rewrite lookup_foldr_delete_not_elem_of.
      2:{ rewrite elem_of_glob_patch. intros [_ [? ?]]. congruence. }
      by rewrite Hfile.
  - rewrite lookup_foldr_delete_not_elem_of.
    2:{ rewrite elem_of_glob_patch. intros [? _]. congruence. }
    destruct (files !! name) as [text|]; simpl; [|done].
    by rewrite option_guard_True.
Qed.

Lemma unlink_loop_run names : ∀ (files : gmap string string) w,
  patches_dir w = Some files → NoDup names →
  (∀ name, name ∈ names → is_Some (files !! name)) →
  for_each names (λ f, unlink f ;; print ("  Removed: " +:+ f)) w
  = mkRun ((λ f, Stdout ("  Removed: " +:+ f)) <$> names)
          (set_patches_dir (Some (foldr delete files (reverse names))) w) (Returned tt).
Proof.
  induction names as [|name names IH]; intros files w Hdir Hnodup Hin.
  - simpl. unfold ret. by rewrite set_patches_dir_id.
  - simpl. unfold unlink. unfold_monad. rewrite Hdir. simpl.
    rewrite bool_decide_true by (apply Hin; left).
    simpl.
    apply NoDup_cons in Hnodup as [Hfresh Hnodup].
    rewrite (IH (delete name files)); [|done|done|].
    + simpl. rewrite reverse_cons, foldr_app. simpl. reflexivity.
    + intros other Hother. rewrite lookup_delete_ne by set_solver.
      apply Hin. by right.
Qed.

Lemma delete_patches (files : gmap string string) names :
  (∀ name, name ∈ names ↔ name ∈ glob_patch (Some files)) →
  foldr delete files names
  = filter (λ file : string * string, is_patch file.1 = false) files.
Proof.
  intros Hnames. rewrite <- glob_patch_filtered.
  apply map_eq. intros name.
  destruct (decide (name ∈ names)) as [Hin|Hout].
  - rewrite !lookup_foldr_delete; [done| |done]. by apply Hnames.
  - rewrite !lookup_foldr_delete_not_elem_of; [done| |done]. by rewrite <- Hnames.
Qed.

Lemma clean_old_patches_run w :
  clean_old_patches w =
    let old_patches := glob_patch (patches_dir w) in
    mkRun (Stdout "[1/5] Cleaning old patches..."
           :: ((λ f, Stdout ("  Removed: " +:+ f)) <$> old_patches)
           ++ (if bool_decide (old_patches = [])
               then [Stdout "  (No old patches to remove)"] else []))
          (cleaned w) (Returned tt).
Proof.
  unfold clean_old_patches, print_header. unfold_monad. simpl.
  assert (Hdir : patches_dir (mkdir_patches w) = Some (default ∅ (patches_dir w))).
  { unfold mkdir_patches. by destruct (patches_dir w) eqn:Hd; simpl; [rewrite Hd|]. }
  assert (Hglob : glob_patch (patches_dir (mkdir_patches w)) = glob_patch (patches_dir w)).
  { unfold mkdir_patches. destruct (patches_dir w) eqn:Hd; simpl; [by rewrite Hd|].
    by rewrite map_to_list_empty. }
  rewrite Hglob.
  rewrite (unlink_loop_run _ _ _ Hdir (NoDup_glob_patch _)).
  2:{ intros name Hin. rewrite <- Hglob, Hdir in Hin. by apply elem_of_glob_patch in Hin as [_ ?]. }
  simpl. rewrite delete_patches.
  2:{ intros name. rewrite elem_of_reverse, <- Hglob, Hdir. done. }
  assert (Hfinal : set_patches_dir
            (Some (filter (λ file : string * string, is_patch file.1 = false)
                          (default ∅ (patches_dir w)))) (mkdir_patches w) = cleaned w).
  { unfold cleaned, mkdir_patches. by destruct (patches_dir w). }
  rewrite Hfinal.
  case_bool_decide; simpl; by rewrite ?app_nil_r.
Qed.

Lemma exporter_run_git_run E args cwd capture check w :
  run_git E args cwd capture check w =
    let c := subprocess E ("git" :: args) cwd w in
    let rc := child_returncode c in
    if check && negb (rc =? 0)%Z then
      mkRun [Stdout ("  > " +:+ Py.join " " ("git" :: args));
             Exec ("git" :: args) cwd rc;
             Stderr ("Command failed with exit code " +:+ Py.str_int rc)]
            (child_world c) (SysExit 1)
    else
      mkRun [Stdout ("  > " +:+ Py.join " " ("git" :: args)); Exec ("git" :: args) cwd rc]
            (child_world c)
            (Returned (mkCompleted rc (if capture then Some (child_stdout c) else None))).
Proof.
  unfold run_git. unfold_monad. simpl.
  by destruct (check && negb (child_returncode _ =? 0)%Z).
Qed.

Lemma update_base_commit_run E eden w :
  update_base_commit E eden w =
    let cmd := ["git"; "rev-parse"; "gitlab/master"] in
    let c := subprocess E cmd eden w in
    let start :=
      [Stdout "[5/5] Updating BASE_COMMIT.txt...";
       Stdout "  > git rev-parse gitlab/master";
       Exec cmd eden (child_returncode c)] in
    if (child_returncode c =? 0)%Z then
      mkRun (start ++ [Stdout ("  Updated commit: " +:+ Py.strip (child_stdout c))])
            (set_base_commit_file (Some (Py.strip (child_stdout c) +:+ Py.LF)) (child_world c))
            (Returned tt)
    else
      mkRun (start ++ [Stdout "  Warning: Could not get upstream commit hash"])
            (child_world c) (Returned tt).
Proof.
  unfold update_base_commit, run_git, print_header. unfold_monad. simpl.
  by destruct (child_returncode _ =? 0)%Z.
Qed.

Lemma validate_eden_repo_run E eden w :
  validate_eden_repo E eden w =
    if bool_decide (eden ∈ dot_git w) then
      let cmd := ["git"; "remote"; "get-url"; "gitlab"] in
      let c := subprocess E cmd eden w in
      let start := [Stdout "  > git remote get-url gitlab"; Exec cmd eden (child_returncode c)] in
      if (child_returncode c =? 0)%Z then mkRun start (child_world c) (Returned tt)
      else
        mkRun (start ++
               [Stderr ("Error: No 'gitlab' remote found in eden repo." +:+ Py.LF
                        +:+ "  Add a remote named 'gitlab' pointing to your upstream.")])
              (child_world c) (SysExit 1)
    else
      mkRun [Stderr ("Error: '" +:+ eden +:+ "' is not a git repository!" +:+ Py.LF +:+ Py.LF
                     +:+ "Usage:" +:+ Py.LF
                     +:+ "  python export_patches.py [path-to-eden-repo]" +:+ Py.LF
                     +:+ "  python export_patches.py  # uses current directory")]
            w (SysExit 1).
Proof.
  unfold validate_eden_repo, run_git. unfold_monad. simpl.
  case_bool_decide; simpl; [|done].
  by destruct (child_returncode _ =? 0)%Z.
Qed.

(** [main] is the three opening lines, the validation, the cleaning,
    and the rest. *)
Lemma exporter_main_unfold E argv :
  main E argv
  = (print ("Eden repo:   " +:+ eden_repo_of E argv) ;;
     print ("Patch repo:  " +:+ PATCH_REPO E) ;;
     print "" ;;
     validate_eden_repo E (eden_repo_of E argv) ;;
     clean_old_patches ;;
     after_cleaning E (eden_repo_of E argv)).
Proof. reflexivity. Qed.

(** A run of the exporter's [main] stops at one of the two checks, or
    cleans the patches directory and goes on from the cleaned world. *)
Lemma exporter_main_cases E argv w :
  let eden := eden_repo_of E argv in
  let r := main E argv w in
  let intro :=
    [Stdout ("Eden repo:   " +:+ eden); Stdout ("Patch repo:  " +:+ PATCH_REPO E); Stdout ""] in
  let remote := ["git"; "remote"; "get-url"; "gitlab"] in
  ((eden ∉ dot_git w) ∧ outcome r = SysExit 1 ∧ final r = w ∧ commands (trace r) = []
   ∧ ∃ rest, last (trace r) =
       Some (Stderr ("Error: '" +:+ eden +:+ "' is not a git repository!" +:+ rest)))
  ∨ (eden ∈ dot_git w ∧ outcome r = SysExit 1
     ∧ child_returncode (subprocess E remote eden w) ≠ 0%Z
     ∧ commands (trace r) = [(remote, eden, child_returncode (subprocess E remote eden w))])
  ∨ (eden ∈ dot_git w
     ∧ ∃ out1 w1,
         subprocess E remote eden w = mkChild 0 out1 w1
         ∧ r = prepend (intro
                        ++ [Stdout "  > git remote get-url gitlab"; Exec remote eden 0]
                        ++ trace (clean_old_patches w1))
                 (after_cleaning E eden (cleaned w1))).
Proof.
  intros eden r intro remote. subst r.
  rewrite exporter_main_unfold. fold eden.
  rewrite !bind_print, !prepend_prepend, bind_run, validate_eden_repo_run.
  fold remote. cbn [app]. fold intro.
  case_bool_decide as Hgit.
  { destruct (subprocess E remote eden w) as [rc1 out1 w1] eqn:Hchild.
    cbn [child_returncode child_world].
    destruct (Z.eqb_spec rc1 0) as [->|Hrc]; cbn [outcome trace final].
    - right. right. split; [done|]. exists out1, w1. split; [done|].
      rewrite bind_run, clean_old_patches_run. cbn [outcome trace final].
      by rewrite !prepend_prepend, <- !app_assoc.
    - right. left. rewrite prepend_run. cbn [outcome trace final].
      split; [done|]. split; [done|]. split; [done|]. reflexivity. }
  left. cbn [outcome trace final]. rewrite prepend_run. cbn [outcome trace final].
  split; [done|]. split; [done|]. split; [done|]. split; [reflexivity|].
  eexists. reflexivity.
Qed.

Lemma generate_patches_run E eden w :
  generate_patches E eden w =
    let cmd := "git" :: format_patch_args E in
    let c := subprocess E cmd eden w in
    let start :=
      [Stdout "[2/5] Generating patches (git format-patch)...";
       Stdout ("  > " +:+ Py.join " " cmd);
       Exec cmd eden (child_returncode c)] in
    if (child_returncode c =? 0)%Z then mkRun start (child_world c) (Returned tt)
    else
      mkRun (start ++ [Stderr ("Command failed with exit code "
                               +:+ Py.str_int (child_returncode c))])
            (child_world c) (SysExit 1).
Proof.
  unfold generate_patches, run_git, print_header. unfold_monad. simpl.
  by destruct (child_returncode _ =? 0)%Z.
Qed.

Lemma after_cleaning_commands E eden w :
  ∃ rest,
    commands (trace (after_cleaning E eden w))
    = ("git" :: format_patch_args E, eden,
       child_returncode (subprocess E ("git" :: format_patch_args E) eden w)) :: rest.
Proof.
  unfold after_cleaning. rewrite bind_run, generate_patches_run. cbv zeta.
  destruct (child_returncode _ =? 0)%Z; cbn [outcome trace final].
  - unfold prepend. cbn [trace]. rewrite commands_app. by eexists.
  - by eexists.
Qed.

(** C5: the exporter's first step creates patches/ if it is missing and
    removes every file in it whose name matches [*.patch], starting no
    command while it does so and leaving the other files alone; and in a
    run of [main] the [git format-patch] command, when it is reached, is
    the first command after the remote check and is started in the world
    this step has left, in which patches/ holds no patch file. *)
Theorem C5_old_patches_removed_before_generation E argv w :
  let eden := eden_repo_of E argv in
  let remote := ["git"; "remote"; "get-url"; "gitlab"] in
  let format_patch := "git" :: format_patch_args E in
  (∀ w0 : World Repo,
     let r0 := clean_old_patches w0 in
     outcome r0 = Returned tt ∧ commands (trace r0) = [] ∧ final r0 = cleaned w0
     ∧ glob_patch (patches_dir (final r0)) = []
     ∧ ∃ files,
         patches_dir (final r0) = Some files
         ∧ (∀ name, is_patch name = true → files !! name = None)
         ∧ (∀ name, is_patch name = false →
              files !! name = default ∅ (patches_dir w0) !! name))
  ∧ (let r := main E argv w in
     commands (trace r) = []
     ∨ (∃ rc, rc ≠ 0%Z ∧ commands (trace r) = [(remote, eden, rc)])
     ∨ (∃ out1 w1 rest,
          subprocess E remote eden w = mkChild 0 out1 w1
          ∧ commands (trace r) =
              (remote, eden, 0%Z)
              :: (format_patch, eden,
                  child_returncode (subprocess E format_patch eden (cleaned w1)))
              :: rest)).
Proof.
  intros eden remote format_patch. split.
  - intros w0 r0. subst r0. rewrite clean_old_patches_run. cbv zeta. cbn [outcome trace final].
    assert (Hfiles : ∀ name,
      filter (λ file : string * string, is_patch file.1 = false)
             (default ∅ (patches_dir w0)) !! name
      = if is_patch name then None else default ∅ (patches_dir w0) !! name).
    { intros name. rewrite map_lookup_filter.
      destruct (default ∅ (patches_dir w0) !! name) as [text|]; simpl.
      - destruct (is_patch name) eqn:Hp.
        + rewrite option_guard_False; [done|]. simpl. congruence.
        + by rewrite option_guard_True.
      - by destruct (is_patch name). }
    split; [done|]. split.
    { change (Stdout "[1/5] Cleaning old patches..." :: ?t) with
        ([Stdout "[1/5] Cleaning old patches..."] ++ t).
      rewrite !commands_app, commands_printed. by case_bool_decide. }
    split; [done|]. split.
    { apply elem_of_nil_inv. intros name [Hp [text Hin]]%elem_of_glob_patch.
      by rewrite Hfiles, Hp in Hin. }
    eexists. split; [reflexivity|]. split; intros name Hp; by rewrite Hfiles, Hp.
  - intros r.
    destruct (exporter_main_cases E argv w) as [H|[H|H]]; fold eden r in H.
    + left. by destruct H as (_ & _ & _ & H & _).
    + right. left. destruct H as (_ & _ & Hrc & H). eexists. split; [exact Hrc|exact H].
    + right. right. destruct H as (_ & out1 & w1 & Hchild & Hr).
      destruct (after_cleaning_commands E eden (cleaned w1)) as [rest Hrest].
      exists out1, w1, rest. split; [done|].
      rewrite Hr. unfold prepend. cbn [trace]. rewrite !commands_app, Hrest.
      rewrite clean_old_patches_run. cbv zeta. cbn [trace].
      change (Stdout "[1/5] Cleaning old patches..." :: ?t) with
        ([Stdout "[1/5] Cleaning old patches..."] ++ t).
      rewrite !commands_app, commands_printed. by case_bool_decide.
Qed.

(** C3: the exporter's last step runs [git rev-parse] on
    <upstream-remote>/<upstream-branch> and returns in any case.  When
    the command fails it prints a warning and writes nothing: the world
    is as the command left it, so BASE_COMMIT.txt is as it was whenever
    the command itself has not touched it.  When the command succeeds
    BASE_COMMIT.txt holds the trimmed output followed by one newline. *)
Theorem C3_failed_resolution_keeps_base_commit E eden w :
  let cmd := ["git"; "rev-parse"; UPSTREAM_REMOTE +:+ "/" +:+ UPSTREAM_BRANCH] in
  let c := subprocess E cmd eden w in
  let r := update_base_commit E eden w in
  outcome r = Returned tt
  ∧ commands (trace r) = [(cmd, eden, child_returncode c)]
  ∧ (child_returncode c ≠ 0%Z →
       Stdout "  Warning: Could not get upstream commit hash" ∈ trace r
       ∧ final r = child_world c
       ∧ (base_commit_file (child_world c) = base_commit_file w →
          base_commit_file (final r) = base_commit_file w))
  ∧ (child_returncode c = 0%Z →
       final r = set_base_commit_file (Some (Py.strip (child_stdout c) +:+ Py.LF))
                   (child_world c)
       ∧ base_commit_file (final r) = Some (Py.strip (child_stdout c) +:+ Py.LF)).
Proof.
  intros cmd c r. subst r. rewrite update_base_commit_run. cbv zeta.
  change ["git"; "rev-parse"; "gitlab/master"] with cmd. fold c.
  destruct (Z.eqb_spec (child_returncode c) 0) as [Hrc|Hrc]; cbn [outcome trace final].
  - split; [reflexivity|]. split; [reflexivity|]. split; [done|].
    intros _. split; reflexivity.
  - split; [reflexivity|]. split; [reflexivity|].
    split; [|done]. intros _.
    split; [|split; [reflexivity|done]].
    cbn [app]. set_solver.
Qed.

Lemma strip_trimmed_line h : trimmed h → Py.strip (h +:+ Py.LF) = h.
Proof.
  intros [Hfirst Hlast]. unfold Py.strip.
  assert (Hl : Py.lstrip (h +:+ Py.LF) = Py.rstrip h +:+ Py.LF ∨ h = "").
  { destruct h as [|c rest]; [by right|left].
    rewrite PyFacts.rstrip_id by done.
    change (String c rest +:+ Py.LF) with (String c (rest +:+ Py.LF)).
    simpl. by rewrite (Hfirst c rest). }
  destruct Hl as [Hl| ->]; [|reflexivity].
  rewrite Hl, (PyFacts.rstrip_id h) by done.
  unfold Py.LF. rewrite PyFacts.rstrip_app_space by done.
  by apply PyFacts.rstrip_id.
Qed.
End Exporter.

Section BothTools.
Context {Repo : Type}.
Implicit Types (E : Env Repo) (w : World Repo).

(** C9: for a string [h] without leading or trailing whitespace, when
    the exporter's update step resolves the upstream commit to [h], it
    writes [h] and a newline to BASE_COMMIT.txt whatever the length of
    [h]; and on any world with that file the importer's loader returns
    exactly [h] when [h] has at least seven characters and exits with
    status 1 otherwise. *)
Theorem C9_base_commit_round_trip E E' eden w h :
  let c := subprocess E ["git"; "rev-parse"; "gitlab/master"] eden w in
  trimmed h →
  child_returncode c = 0%Z →
  Py.strip (child_stdout c) = h →
  let w' := final (export_patches.update_base_commit E eden w) in
  base_commit_file w' = Some (h +:+ Py.LF)
  ∧ ∀ w2, base_commit_file w2 = base_commit_file w' →
      apply_patches.load_base_commit E' w2 =
        if bool_decide (7 ≤ Py.len h)
        then mkRun [] w2 (Returned h)
        else mkRun [Stderr "Error: BASE_COMMIT.txt is empty or invalid!"] w2 (SysExit 1).
Proof.
  intros c Htrim Hrc Hout w'.
  assert (Hfile : base_commit_file w' = Some (h +:+ Py.LF)).
  { subst w'. rewrite update_base_commit_run. cbv zeta. fold c.
    rewrite Hrc. cbn [Z.eqb final]. by rewrite Hout. }
  split; [done|]. intros w2 Hw2.
  rewrite load_base_commit_run, Hw2, Hfile. cbv beta iota.
  rewrite strip_trimmed_line by done.
  destruct (decide (7 ≤ Py.len h)) as [Hlen|Hlen].
  - rewrite (bool_decide_true (7 ≤ Py.len h)) by done.
    rewrite (bool_decide_false (Py.len h < 7)) by lia.
    rewrite (bool_decide_false (h = "")); [done|].
    intros ->. vm_compute in Hlen. lia.
  - rewrite (bool_decide_false (7 ≤ Py.len h)) by done.
    rewrite (bool_decide_true (Py.len h < 7)) by lia. by rewrite orb_true_r.
Qed.

(** C7, with the exit status the scripts give: when a command run
    through [run_git] with [check] enabled returns a non-zero code,
    either script ends with exit status 1, whatever the code was; the
    code appears in the diagnostic, which the importer prints on stdout
    and the exporter on stderr. *)
Theorem C7_fatal_command_exits_with_status_1 E args cwd capture w :
  let cmd := "git" :: args in
  let c := subprocess E cmd cwd w in
  child_returncode c ≠ 0%Z →
  apply_patches.run_git E args cwd capture true w =
    mkRun [Stdout ("  > " +:+ Py.join " " cmd);
           Exec cmd cwd (child_returncode c);
           Stdout ("Command failed with exit code " +:+ Py.str_int (child_returncode c))]
          (child_world c) (SysExit 1)
  ∧ export_patches.run_git E args cwd capture true w =
    mkRun [Stdout ("  > " +:+ Py.join " " cmd);
           Exec cmd cwd (child_returncode c);
           Stderr ("Command failed with exit code " +:+ Py.str_int (child_returncode c))]
          (child_world c) (SysExit 1).
Proof.
  intros cmd c Hrc.
  rewrite importer_run_git_run, exporter_run_git_run. cbv zeta. fold cmd c.
  destruct (Z.eqb_spec (child_returncode c) 0); done.
Qed.

(** C4: when the directory given as the target repository holds no
    [.git] entry, the importer and the exporter both exit with status 1
    and a message on stderr, having started no child process and
    changed nothing.  The exporter's message, and the importer's when
    BASE_COMMIT.txt is usable, says that the path is not a git
    repository. *)
Theorem C4_missing_dot_git_stops_both_tools E w :
  (∀ prog path rest,
     resolve E path ∉ dot_git w →
     let r := apply_patches.script E (prog :: path :: rest) w in
     outcome r = SysExit 1 ∧ exit_status (outcome r) = 1%Z
     ∧ commands (trace r) = [] ∧ final r = w
     ∧ ∃ msg, last (trace r) = Some (Stderr msg)
         ∧ (¬ base_commit_unusable (base_commit_file w) →
            ∃ more, msg = "Error: '" +:+ resolve E path +:+ "' is not a git repository!"
                           +:+ more))
  ∧ (∀ argv,
       export_patches.eden_repo_of E argv ∉ dot_git w →
       let r := export_patches.main E argv w in
       outcome r = SysExit 1 ∧ exit_status (outcome r) = 1%Z
       ∧ commands (trace r) = [] ∧ final r = w
       ∧ ∃ more, last (trace r) =
           Some (Stderr ("Error: '" +:+ export_patches.eden_repo_of E argv
                         +:+ "' is not a git repository!" +:+ more))).
Proof.
  split.
  - intros prog path rest Hgit. cbv zeta.
    unfold apply_patches.script, apply_patches.main, apply_patches.validate_eden_repo.
    unfold_monad. simpl.
    rewrite load_base_commit_run.
    destruct (base_commit_file w) as [text|] eqn:Hfile; simpl.
    + destruct (_ || _) eqn:Hbad; simpl.
      * split; [done|]. split; [done|]. split; [done|]. split; [done|].
        eexists. split; [done|]. intros []. 
        apply orb_true_iff in Hbad as [H|H]; apply bool_decide_eq_true in H; auto.
      * rewrite bool_decide_false by done. simpl.
        split; [done|]. split; [done|]. split; [done|]. split; [done|].
        eexists. split; [done|]. intros _. by eexists.
    + split; [done|]. split; [done|]. split; [done|]. split; [done|].
      eexists. split; [done|]. by intros [].
  - intros argv Hgit r.
    destruct (exporter_main_cases E argv w) as [H|[H|H]]; fold r in H.
    + destruct H as (_ & Hout & Hfinal & Hcmds & Hmsg).
      rewrite Hout. done.
    + by destruct H as [? _].
    + by destruct H as [? _].
Qed.
End BothTools.

Section Idempotence.
Context {Repo : Type}.
Implicit Types (E : Env Repo) (w : World Repo).
Import export_patches.

Lemma generate_preview_diff_run E eden w :
  generate_preview_diff E eden w =
    let cmd := ["git"; "diff"; "gitlab/master..HEAD"] in
    let c := subprocess E cmd eden (set_preview_diff (Some "") w) in
    mkRun [Stdout "[3/5] Generating preview.diff...";
           Exec cmd eden (child_returncode c);
           Stdout ("  Written: " +:+ PREVIEW_DIFF E)]
          (set_preview_diff (Some (child_stdout c)) (child_world c)) (Returned tt).
Proof. reflexivity. Qed.

Lemma generate_series_file_run E w :
  generate_series_file E w =
    match patches_dir w with
    | Some files =>
        let patch_files := Py.sorted (glob_patch (Some files)) in
        mkRun [Stdout "[4/5] Generating patches/series...";
               Stdout ("  Written: " +:+ Py.joinpath (PATCHES_DIR E) "series" +:+ " ("
                       +:+ Py.str_len (length patch_files) +:+ " patches)")]
              (set_patches_dir (Some (<["series" := series_text patch_files]> files)) w)
              (Returned patch_files)
    | None =>
        mkRun [Stdout "[4/5] Generating patches/series..."] w (Uncaught "FileNotFoundError")
    end.
Proof.
  unfold generate_series_file, print_header. unfold_monad. simpl.
  by destruct (patches_dir w).
Qed.

(** How the exporter's [main] ends once the patches directory is clean. *)
Lemma after_cleaning_result E eden w :
  let c3 := subprocess E ("git" :: format_patch_args E) eden w in
  let c4 := subprocess E ["git"; "diff"; "gitlab/master..HEAD"] eden
              (set_preview_diff (Some "") (child_world c3)) in
  let w4 := set_preview_diff (Some (child_stdout c4)) (child_world c4) in
  let r := after_cleaning E eden w in
  if (child_returncode c3 =? 0)%Z then
    match patches_dir w4 with
    | Some files =>
        let w5 :=
          set_patches_dir
            (Some (<["series" := series_text (Py.sorted (glob_patch (Some files)))]> files)) w4 in
        let c6 := subprocess E ["git"; "rev-parse"; "gitlab/master"] eden w5 in
        outcome r = Returned tt
        ∧ final r =
            if (child_returncode c6 =? 0)%Z
            then set_base_commit_file (Some (Py.strip (child_stdout c6) +:+ Py.LF))
                   (child_world c6)
            else child_world c6
    | None => outcome r = Uncaught "FileNotFoundError"
    end
  else outcome r = SysExit 1.
Proof.
  intros c3 c4 w4 r. subst r. unfold after_cleaning.
  rewrite bind_run, generate_patches_run. cbv zeta. fold c3.
  destruct (child_returncode c3 =? 0)%Z; cbn [outcome trace final]; [|done].
  rewrite bind_run, generate_preview_diff_run. cbv zeta. fold c4. cbn [outcome trace final].
  fold w4. rewrite bind_run, generate_series_file_run.
  destruct (patches_dir w4) as [files|]; cbn [outcome trace final]; [|done].
  rewrite bind_run, update_base_commit_run. cbv zeta.
  by destruct (child_returncode _ =? 0)%Z.
Qed.

Lemma same_repositories_trans w1 w2 w3 :
  same_repositories w1 w2 → same_repositories w2 w3 → same_repositories w1 w3.
Proof. intros [? ?] [? ?]. split; congruence. Qed.

Lemma same_repositories_sym w1 w2 : same_repositories w1 w2 → same_repositories w2 w1.
Proof. intros [? ?]. by split. Qed.

Lemma glob_patch_cleaned w : glob_patch (patches_dir (cleaned w)) = [].
Proof.
  apply elem_of_nil_inv. intros name [Hp [text Hin]]%elem_of_glob_patch.
  apply map_lookup_filter_Some in Hin as [_ Hnot]. simpl in Hnot. congruence.
Qed.

(** What a run of the exporter that returns has done, told by the fields
    of its final world. *)
Lemma export_summary E argv w :
  let eden := eden_repo_of E argv in
  let r := main E argv w in
  let w1 := child_world (subprocess E ["git"; "remote"; "get-url"; "gitlab"] eden w) in
  let c3 := subprocess E ("git" :: format_patch_args E) eden (cleaned w1) in
  reads_only E eden →
  (outcome r = Returned tt ↔
     eden ∈ dot_git w
     ∧ child_returncode (subprocess E ["git"; "remote"; "get-url"; "gitlab"] eden w) = 0%Z
     ∧ child_returncode c3 = 0%Z
     ∧ is_Some (patches_dir (child_world c3)))
  ∧ (outcome r = Returned tt →
     ∃ files w3 w5,
       patches_dir (child_world c3) = Some files
       ∧ same_repositories w3 w ∧ same_repositories w5 w
       ∧ same_repositories (final r) w
       ∧ series_file (final r) = Some (series_text (Py.sorted (glob_patch (Some files))))
       ∧ preview_diff (final r)
         = Some (child_stdout (subprocess E ["git"; "diff"; "gitlab/master..HEAD"] eden w3))
       ∧ base_commit_file (final r)
         = let c6 := subprocess E ["git"; "rev-parse"; "gitlab/master"] eden w5 in
           if (child_returncode c6 =? 0)%Z
           then Some (Py.strip (child_stdout c6) +:+ Py.LF)
           else base_commit_file w).
Proof.
  intros eden r w1 c3 Hro.
  assert (Hremote : ["git"; "remote"; "get-url"; "gitlab"] ∈ exporter_commands E)
    by (unfold exporter_commands; repeat constructor).
  assert (Hfp : "git" :: format_patch_args E ∈ exporter_commands E)
    by (unfold exporter_commands; repeat constructor).
  assert (Hdiff : ["git"; "diff"; "gitlab/master..HEAD"] ∈ exporter_commands E)
    by (unfold exporter_commands; repeat constructor).
  assert (Hrev : ["git"; "rev-parse"; "gitlab/master"] ∈ exporter_commands E)
    by (unfold exporter_commands; repeat constructor).
  destruct (Hro _ w Hremote) as (Hs1 & Hb1 & Hp1 & _). fold w1 in Hs1, Hb1, Hp1.
  destruct (Hro _ (cleaned w1) Hfp) as (Hs3 & Hb3 & Hp3 & _). fold c3 in Hs3, Hb3, Hp3.
  set (c4 := subprocess E ["git"; "diff"; "gitlab/master..HEAD"] eden
               (set_preview_diff (Some "") (child_world c3))).
  destruct (Hro _ (set_preview_diff (Some "") (child_world c3)) Hdiff) as (Hs4 & Hb4 & _ & Hd4).
  fold c4 in Hs4, Hb4, Hd4. specialize (Hd4 ltac:(discriminate)).
  set (w4 := set_preview_diff (Some (child_stdout c4)) (child_world c4)).
  assert (Hdir4 : patches_dir w4 = patches_dir (child_world c3)) by exact Hd4.
  pose proof (after_cleaning_result E eden (cleaned w1)) as Hres. cbv zeta in Hres.
  fold c3 c4 w4 in Hres.
  destruct (exporter_main_cases E argv w) as [H|[H|H]]; fold eden r in H.
  { destruct H as (Hgit & Hout & _). split.
    - split; [intros Hret; congruence|]. by intros [? _].
    - intros Hret. congruence. }
  { destruct H as (Hgit & Hout & Hrc & _). split.
    - split; [intros Hret; congruence|]. by intros (_ & ? & _).
    - intros Hret. congruence. }
  destruct H as (Hgit & out1 & w1' & Hc1 & Hr).
  assert (Hw1 : w1' = w1) by (subst w1; by rewrite Hc1). subst w1'.
  assert (Hrc1 : child_returncode (subprocess E ["git"; "remote"; "get-url"; "gitlab"] eden w)
                 = 0%Z) by (by rewrite Hc1).
  assert (Hout : outcome r = outcome (after_cleaning E eden (cleaned w1))) by (by rewrite Hr).
  assert (Hfin : final r = final (after_cleaning E eden (cleaned w1))) by (by rewrite Hr).
  rewrite Hout, Hfin. clear Hr Hout Hfin.
  destruct (Z.eqb_spec (child_returncode c3) 0) as [Hrc3|Hrc3].
  2:{ split.
      - split; [intros Hret; congruence|]. by intros (_ & _ & ? & _).
      - intros Hret. congruence. }
  rewrite Hdir4 in Hres.
  destruct (patches_dir (child_world c3)) as [files|] eqn:Hfiles.
  2:{ split.
      - split; [intros Hret; congruence|]. by intros (_ & _ & _ & [? ?]).
      - intros Hret. congruence. }
  destruct Hres as [Hret Hfinal].
  split; [by split|]. intros _.
  set (w5 := set_patches_dir
               (Some (<["series" := series_text (Py.sorted (glob_patch (Some files)))]> files))
               w4) in *.
  set (c6 := subprocess E ["git"; "rev-parse"; "gitlab/master"] eden w5) in *.
  destruct (Hro _ w5 Hrev) as (Hs6 & Hb6 & Hp6 & Hd6). fold c6 in Hs6, Hb6, Hp6, Hd6.
  specialize (Hd6 ltac:(discriminate)).
  assert (Hs3' : same_repositories (set_preview_diff (Some "") (child_world c3)) w).
  { eapply same_repositories_trans; [|exact Hs1].
    eapply same_repositories_trans; [|split; reflexivity]. exact Hs3. }
  assert (Hs5 : same_repositories w5 w).
  { eapply same_repositories_trans; [|exact Hs3'].
    eapply same_repositories_trans; [|exact Hs4]. split; reflexivity. }
  assert (Hs6' : same_repositories (child_world c6) w)
    by (eapply same_repositories_trans; [exact Hs6|exact Hs5]).
  exists files, (set_preview_diff (Some "") (child_world c3)), w5.
  split; [done|]. split; [done|]. split; [done|].
  rewrite Hfinal. fold c4 c6. cbv zeta.
  destruct (child_returncode c6 =? 0)%Z.
  - split; [exact Hs6'|]. unfold series_file. cbn [patches_dir preview_diff base_commit_file set_base_commit_file].
    rewrite Hd6, Hp6. cbn. rewrite lookup_insert_eq. done.
  - split; [exact Hs6'|]. unfold series_file.
    rewrite Hd6, Hp6, Hb6. cbn. rewrite lookup_insert_eq.
    split; [done|]. split; [done|].
    rewrite Hb4. cbn. rewrite Hb3. cbn. done.
Qed.

(** C6, with the preview as git prints it: when the exporter's commands
    only read the repositories and answer by them, and the exporter has
    run to its end, a second run right after it also runs to its end and
    leaves the same series manifest, the same preview.diff and the same
    BASE_COMMIT.txt.  The preview.diff is what [git diff] printed, so it
    is empty only when that command prints nothing. *)
Theorem C6_second_export_changes_nothing E argv w :
  let eden := eden_repo_of E argv in
  let r1 := main E argv w in
  let r2 := main E argv (final r1) in
  reads_only E eden → repeatable E eden → format_patch_repeatable E eden →
  outcome r1 = Returned tt →
  outcome r2 = Returned tt
  ∧ is_Some (series_file (final r1))
  ∧ series_file (final r2) = series_file (final r1)
  ∧ preview_diff (final r2) = preview_diff (final r1)
  ∧ base_commit_file (final r2) = base_commit_file (final r1)
  ∧ ∃ w3,
      same_repositories w3 w
      ∧ preview_diff (final r1)
        = Some (child_stdout (subprocess E ["git"; "diff"; "gitlab/master..HEAD"] eden w3)).
Proof.
  intros eden r1 r2 Hro Hrep Hfpr Hret1.
  assert (Hremote : ["git"; "remote"; "get-url"; "gitlab"] ∈ exporter_commands E)
    by (unfold exporter_commands; repeat constructor).
  assert (Hfp : "git" :: format_patch_args E ∈ exporter_commands E)
    by (unfold exporter_commands; repeat constructor).
  assert (Hdiff : ["git"; "diff"; "gitlab/master..HEAD"] ∈ exporter_commands E)
    by (unfold exporter_commands; repeat constructor).
  assert (Hrev : ["git"; "rev-parse"; "gitlab/master"] ∈ exporter_commands E)
    by (unfold exporter_commands; repeat constructor).
  destruct (export_summary E argv w Hro) as [Hiff1 Hsum1]. fold eden r1 in Hiff1, Hsum1.
  destruct (proj1 Hiff1 Hret1) as (Hgit & Hrc1 & Hrc3 & Hsome).
  destruct (Hsum1 Hret1) as (files & w3 & w5 & Hfiles & Hs3 & Hs5 & Hsf & Hseries & Hprev & Hbase).
  clear Hiff1 Hsum1.
  destruct (export_summary E argv (final r1) Hro) as [Hiff2 Hsum2].
  fold eden r2 in Hiff2, Hsum2.
  set (w1 := child_world (subprocess E ["git"; "remote"; "get-url"; "gitlab"] eden w)) in *.
  set (w1' := child_world (subprocess E ["git"; "remote"; "get-url"; "gitlab"] eden (final r1)))
    in *.
  assert (Hs1 : same_repositories w1 w) by apply (Hro _ w Hremote).
  assert (Hs1' : same_repositories w1' w).
  { eapply same_repositories_trans; [apply (Hro _ (final r1) Hremote)|exact Hsf]. }
  assert (Hsc : same_repositories (cleaned w1) (cleaned w1')).
  { destruct Hs1 as [? ?], Hs1' as [? ?]. split; simpl; congruence. }
  destruct (Hfpr _ _ Hsc) as [Hglob Hsome'];
    [done|done|apply glob_patch_cleaned|apply glob_patch_cleaned|].
  assert (Hret2 : outcome r2 = Returned tt).
  { apply Hiff2. split; [|split; [|split]].
    - destruct Hsf as [_ Hdg]. by rewrite Hdg.
    - rewrite <- Hrc1. by apply Hrep.
    - rewrite <- Hrc3. apply Hrep; [done|]. by apply same_repositories_sym.
    - by apply Hsome'. }
  destruct (Hsum2 Hret2)
    as (files' & w3' & w5' & Hfiles' & Hs3' & Hs5' & Hsf' & Hseries' & Hprev' & Hbase').
  split; [done|]. split; [by rewrite Hseries|]. split; [|split; [|split]].
  - rewrite Hseries, Hseries'. do 2 f_equal. apply PyFacts.sorted_unique.
    rewrite Hfiles, Hfiles' in Hglob. by symmetry.
  - rewrite Hprev, Hprev'. f_equal. apply Hrep; [done|].
    eapply same_repositories_trans; [exact Hs3'|].
    eapply same_repositories_trans; [exact Hsf|]. by apply same_repositories_sym.
  - rewrite Hbase'. cbv zeta.
    assert (Hsame : same_repositories w5' w5).
    { eapply same_repositories_trans; [exact Hs5'|].
      eapply same_repositories_trans; [exact Hsf|]. by apply same_repositories_sym. }
    destruct (Hrep _ _ _ Hrev Hsame) as [Hrc6 Hout6].
    rewrite Hrc6, Hout6.
    destruct (child_returncode _ =? 0)%Z eqn:Hok; [|done].
    rewrite Hbase. cbv zeta. by rewrite Hok.
  - by exists w3.
Qed.
End Idempotence.

Lemma C3_witness :
  let c := subprocess Demo.env ["git"; "rev-parse"; "gitlab/master"] Demo.eden (Demo.world 128) in
  let r := export_patches.update_base_commit Demo.env Demo.eden (Demo.world 128) in
  child_returncode c ≠ 0%Z
  ∧ base_commit_file (child_world c) = base_commit_file (Demo.world 128)
  ∧ Stdout "  Warning: Could not get upstream commit hash" ∈ trace r
  ∧ base_commit_file (final r) = base_commit_file (Demo.world 128).
Proof.
  intros c r.
  assert (Hrc : child_returncode c ≠ 0%Z) by (vm_compute; discriminate).
  assert (Hframe : base_commit_file (child_world c) = base_commit_file (Demo.world 128))
    by reflexivity.
  destruct (C3_failed_resolution_keeps_base_commit Demo.env Demo.eden (Demo.world 128))
    as (_ & _ & Hfail & _).
  destruct (Hfail Hrc) as (Hwarn & _ & Hkept).
  split; [exact Hrc|]. split; [exact Hframe|]. split; [exact Hwarn|exact (Hkept Hframe)].
Defined.

Lemma C4_witness :
  (resolve Demo.env "elsewhere" ∉ dot_git (Demo.world 0))
  ∧ (export_patches.eden_repo_of Demo.env ["export_patches.py"; "elsewhere"]
       ∉ dot_git (Demo.world 0))
  ∧ exit_status (outcome (apply_patches.script Demo.env ["apply_patches.py"; "elsewhere"]
                            (Demo.world 0))) = 1%Z
  ∧ commands (trace (export_patches.main Demo.env ["export_patches.py"; "elsewhere"]
                       (Demo.world 0))) = [].
Proof.
  assert (H1 : resolve Demo.env "elsewhere" ∉ dot_git (Demo.world 0)).
  { vm_compute. set_solver. }
  assert (H2 : export_patches.eden_repo_of Demo.env ["export_patches.py"; "elsewhere"]
               ∉ dot_git (Demo.world 0)).
  { vm_compute. set_solver. }
  destruct (C4_missing_dot_git_stops_both_tools Demo.env (Demo.world 0)) as [Himport Hexport].
  split; [exact H1|]. split; [exact H2|]. split.
  - exact (proj1 (proj2 (Himport "apply_patches.py" "elsewhere" [] H1))).
  - exact (proj1 (proj2 (proj2 (Hexport _ H2)))).
Defined.

Lemma C5_witness :
  let w1 := child_world (subprocess Demo.env ["git"; "remote"; "get-url"; "gitlab"]
                           Demo.eden (Demo.world 0)) in
  (default ∅ (patches_dir w1)) !! "0003-c.patch" = Some "third"
  ∧ is_patch "0003-c.patch" = true
  ∧ (default ∅ (patches_dir (cleaned w1))) !! "0003-c.patch" = None
  ∧ glob_patch (patches_dir (final (export_patches.clean_old_patches (Demo.world 0)))) = []
  ∧ ∃ rest,
      commands (trace (export_patches.main Demo.env Demo.argv (Demo.world 0)))
      = (["git"; "remote"; "get-url"; "gitlab"], Demo.eden, 0%Z)
        :: ("git" :: export_patches.format_patch_args Demo.env, Demo.eden,
            child_returncode
              (subprocess Demo.env ("git" :: export_patches.format_patch_args Demo.env)
                 Demo.eden (cleaned w1)))
        :: rest.
Proof.
  intros w1.
  destruct (C5_old_patches_removed_before_generation Demo.env Demo.argv (Demo.world 0))
    as [Hclean Hmain].
  split; [vm_compute; reflexivity|]. split; [vm_compute; reflexivity|].
  split; [vm_compute; reflexivity|].
  split; [exact (proj1 (proj2 (proj2 (proj2 (Hclean (Demo.world 0))))))|].
  destruct Hmain as [Hnone|[(rc & Hrc & Hone)|(out1 & w1' & rest & Hchild & Hcmds)]].
  - vm_compute in Hnone. discriminate Hnone.
  - vm_compute in Hone. injection Hone as <-. done.
  - exists rest. etrans; [exact Hcmds|].
    apply (f_equal child_world) in Hchild. simpl in Hchild.
    assert (Hw : w1' = w1) by exact (eq_sym Hchild).
    by rewrite Hw.
Defined.

Lemma C7_counterexample :
  let w := Demo.world 128 in
  let c := subprocess Demo.env ["git"; "clean"; "-fdx"] Demo.eden w in
  child_returncode c = 128%Z
  ∧ exit_status (outcome
      (apply_patches.run_git Demo.env ["clean"; "-fdx"] Demo.eden false true w))
    ≠ child_returncode c
  ∧ exit_status (outcome
      (export_patches.run_git Demo.env ["clean"; "-fdx"] Demo.eden false true w))
    ≠ child_returncode c.
Proof. vm_compute. repeat split; discriminate. Qed.

Lemma C7_witness :
  let w := Demo.world 128 in
  let c := subprocess Demo.env ["git"; "clean"; "-fdx"] Demo.eden w in
  child_returncode c ≠ 0%Z
  ∧ outcome (apply_patches.run_git Demo.env ["clean"; "-fdx"] Demo.eden false true w)
    = SysExit 1
  ∧ outcome (export_patches.run_git Demo.env ["clean"; "-fdx"] Demo.eden false true w)
    = SysExit 1.
Proof.
  intros w c.
  assert (Hrc : child_returncode c ≠ 0%Z) by (vm_compute; discriminate).
  destruct (C7_fatal_command_exits_with_status_1 Demo.env ["clean"; "-fdx"] Demo.eden
              false w Hrc) as [Himport Hexport].
  split; [exact Hrc|]. split.
  - by rewrite Himport.
  - by rewrite Hexport.
Defined.

Lemma C9_witness :
  let c := subprocess Demo.env ["git"; "rev-parse"; "gitlab/master"] Demo.eden (Demo.world 0) in
  let w' := final (export_patches.update_base_commit Demo.env Demo.eden (Demo.world 0)) in
  trimmed Demo.hash
  ∧ child_returncode c = 0%Z
  ∧ Py.strip (child_stdout c) = Demo.hash
  ∧ base_commit_file w' = Some (Demo.hash +:+ Py.LF)
  ∧ apply_patches.load_base_commit Demo.env w' = mkRun [] w' (Returned Demo.hash).
Proof.
  intros c w'.
  assert (Htrim : trimmed Demo.hash) by (by apply PyFacts.trimmed_of_strip).
  assert (Hrc : child_returncode c = 0%Z) by reflexivity.
  assert (Hout : Py.strip (child_stdout c) = Demo.hash) by (vm_compute; reflexivity).
  destruct (C9_base_commit_round_trip Demo.env Demo.env Demo.eden (Demo.world 0) Demo.hash
              Htrim Hrc Hout) as [Hfile Hload].
  split; [exact Htrim|]. split; [exact Hrc|]. split; [exact Hout|]. split; [exact Hfile|].
  rewrite (Hload w' eq_refl). reflexivity.
Defined.

(** The stand-in [git] of [Demo] reads the repositories only and answers
    by them. *)
Lemma Demo_command_cases cmd :
  cmd ∈ exporter_commands Demo.env →
  cmd = ["git"; "remote"; "get-url"; "gitlab"]
  ∨ cmd = "git" :: export_patches.format_patch_args Demo.env
  ∨ cmd = ["git"; "diff"; "gitlab/master..HEAD"]
  ∨ cmd = ["git"; "rev-parse"; "gitlab/master"].
Proof.
  unfold exporter_commands. rewrite !elem_of_cons, elem_of_nil. tauto.
Qed.

Lemma Demo_git_format_patch w :
  subprocess Demo.env ("git" :: export_patches.format_patch_args Demo.env) Demo.eden w
  = mkChild (Demo.status (repos w)) ""
      (if bool_decide (Demo.status (repos w) = 0%Z)
       then set_patches_dir (Some (Demo.commits (repos w) ∪ default ∅ (patches_dir w))) w
       else w).
Proof. reflexivity. Qed.

Lemma Demo_git_remote w :
  subprocess Demo.env ["git"; "remote"; "get-url"; "gitlab"] Demo.eden w
  = mkChild (Demo.status (repos w)) "" w.
Proof. reflexivity. Qed.

Lemma Demo_git_diff w :
  subprocess Demo.env ["git"; "diff"; "gitlab/master..HEAD"] Demo.eden w
  = mkChild (Demo.status (repos w)) (Demo.diff_text (repos w)) w.
Proof. reflexivity. Qed.

Lemma Demo_git_rev_parse w :
  subprocess Demo.env ["git"; "rev-parse"; "gitlab/master"] Demo.eden w
  = mkChild (Demo.status (repos w)) (Demo.upstream (repos w) +:+ Py.LF) w.
Proof. reflexivity. Qed.

Lemma Demo_reads_only : reads_only Demo.env Demo.eden.
Proof.
  intros cmd w Hin.
  destruct (Demo_command_cases cmd Hin) as [-> | [-> | [-> | ->]]]; cbv zeta;
    rewrite ?Demo_git_remote, ?Demo_git_format_patch, ?Demo_git_diff, ?Demo_git_rev_parse;
    cbn [child_world]; try (repeat split; done).
  destruct (bool_decide (Demo.status (repos w) = 0%Z)); repeat split; done.
Qed.

Lemma Demo_repeatable : repeatable Demo.env Demo.eden.
Proof.
  intros cmd w w' Hin [Hrepos _].
  destruct (Demo_command_cases cmd Hin) as [-> | [-> | [-> | ->]]];
    rewrite ?Demo_git_remote, ?Demo_git_format_patch, ?Demo_git_diff, ?Demo_git_rev_parse;
    cbn [child_returncode child_stdout]; by rewrite Hrepos.
Qed.

Lemma Demo_format_patch_repeatable : format_patch_repeatable Demo.env Demo.eden.
Proof.
  intros w w' [Hrepos _] [files Hfiles] [files' Hfiles'] Hnone Hnone'. cbv beta zeta.
  rewrite !Demo_git_format_patch. cbn [child_world]. rewrite <- Hrepos.
  destruct (bool_decide (Demo.status (repos w) = 0%Z)); cbn [patches_dir set_patches_dir].
  - split; [|by eexists].
    rewrite Hfiles, Hfiles'. cbn [default from_option id].
    apply NoDup_Permutation; [apply NoDup_glob_patch..|].
    intros name. rewrite !elem_of_glob_patch, !lookup_union_is_Some.
    assert (Hfree : ∀ (d : gmap string string),
              glob_patch (Some d) = [] → is_patch name = true → ¬ is_Some (d !! name)).
    { intros d Hd Hp Hsome.
      assert (Hin : name ∈ glob_patch (Some d)) by (by apply elem_of_glob_patch).
      rewrite Hd in Hin. by apply elem_of_nil in Hin. }
    rewrite Hfiles in Hnone. rewrite Hfiles' in Hnone'.
    split; intros [Hp [Hc|Hd]]; (split; [done|]); auto.
    + by destruct (Hfree files Hnone Hp).
    + by destruct (Hfree files' Hnone' Hp).
  - rewrite Hnone, Hnone'. split; [done|]. intros _. by rewrite Hfiles'.
Qed.

Lemma C6_counterexample :
  let r1 := export_patches.main Demo.env Demo.argv (Demo.world 0) in
  let r2 := export_patches.main Demo.env Demo.argv (final r1) in
  reads_only Demo.env Demo.eden
  ∧ repeatable Demo.env Demo.eden
  ∧ format_patch_repeatable Demo.env Demo.eden
  ∧ outcome r1 = Returned tt
  ∧ outcome r2 = Returned tt
  ∧ series_file (final r2) = series_file (final r1)
  ∧ preview_diff (final r2) = preview_diff (final r1)
  ∧ base_commit_file (final r2) = base_commit_file (final r1)
  ∧ preview_diff (final r2) ≠ Some "".
Proof.
  intros r1 r2.
  split; [exact Demo_reads_only|]. split; [exact Demo_repeatable|].
  split; [exact Demo_format_patch_repeatable|].
  vm_compute. repeat split; discriminate.
Qed.

Lemma C6_witness :
  let r1 := export_patches.main Demo.env Demo.argv (Demo.world 0) in
  let r2 := export_patches.main Demo.env Demo.argv (final r1) in
  outcome r1 = Returned tt
  ∧ outcome r2 = Returned tt
  ∧ series_file (final r2) = series_file (final r1)
  ∧ preview_diff (final r2) = preview_diff (final r1)
  ∧ base_commit_file (final r2) = base_commit_file (final r1).
Proof.
  intros r1 r2.
  assert (Hret : outcome r1 = Returned tt) by (vm_compute; reflexivity).
  destruct (C6_second_export_changes_nothing Demo.env Demo.argv (Demo.world 0)
              Demo_reads_only Demo_repeatable Demo_format_patch_repeatable Hret)
    as (Hret2 & _ & Hseries & Hpreview & Hbase & _).
  split; [exact Hret|]. split; [exact Hret2|]. split; [exact Hseries|].
  split; [exact Hpreview|exact Hbase].
Defined.

(** * Further properties of the two scripts *)

(** ** More on [strip] *)

Module StripFacts.
Import Py.

Lemma lstrip_head s c rest : lstrip s = String c rest → isspace c = false.
Proof.
  induction s as [|a s IH]; simpl; [discriminate|].
  destruct (isspace a) eqn:Ha; [exact IH|]. intros H. injection H as -> _. exact Ha.
Qed.

Lemma rstrip_head s c rest : rstrip s = String c rest → ∃ s', s = String c s'.
Proof.
  destruct s as [|a s]; simpl; [discriminate|].
  destruct (rstrip s); [destruct (isspace a)|]; intros H; try discriminate H;
    injection H as -> _; by eexists.
Qed.

Lemma rstrip_last s : ∀ front c, rstrip s = front +:+ String c "" → isspace c = false.
Proof.
  induction s as [|a s IH]; intros front c; simpl.
  - destruct front; discriminate.
  - destruct (rstrip s) as [|b r] eqn:Hr.
    + destruct (isspace a) eqn:Ha; [destruct front; discriminate|].
      destruct front as [|b front]; [intros H; injection H as ->; exact Ha|].
      intros H. injection H as _ H. destruct front; discriminate.
    + destruct front as [|b' front]; [intros H; injection H as _ H; discriminate|].
      intros H. injection H as _ H. by apply (IH front).
Qed.

Lemma strip_trimmed s : trimmed (strip s).
Proof.
  unfold strip. split.
  - intros c rest H. apply rstrip_head in H as [s' H]. by apply lstrip_head in H.
  - intros front c H. by apply rstrip_last in H.
Qed.

End StripFacts.

(** ** What a computation leaves untouched *)

Section Frame.
Context {Repo : Type}.
Implicit Types (E : Env Repo) (w : World Repo) (P : World Repo → Prop).

Lemma keeps_bind {A B} P (m : M Repo A) (k : A → M Repo B) :
  keeps P m → (∀ a, keeps P (k a)) → keeps P (m ≫= k).
Proof.
  intros Hm Hk w Hw. rewrite bind_run. specialize (Hm w Hw).
  destruct (outcome (m w)); [|exact Hm..].
  unfold prepend. cbn [final]. by apply Hk.
Qed.

Lemma keeps_pure {A} P (m : M Repo A) : (∀ w, final (m w) = w) → keeps P m.
Proof. intros H w Hw. by rewrite H. Qed.

Lemma keeps_when P c (body : M Repo unit) : keeps P body → keeps P (when c body).
Proof. intros H. destruct c; [exact H|]. by apply keeps_pure. Qed.

Lemma keeps_subprocess_run P E cmd cwd :
  (∀ w, P w → P (child_world (subprocess E cmd cwd w))) →
  keeps P (subprocess_run E cmd cwd).
Proof. intros H w Hw. by apply H. Qed.

Lemma keeps_modify P (f : World Repo → World Repo) :
  (∀ w, P w → P (f w)) → keeps P (modify f).
Proof. intros H w Hw. by apply H. Qed.

Lemma keeps_for_each {A} P (l : list A) (body : A → M Repo unit) :
  (∀ x, keeps P (body x)) → keeps P (for_each l body).
Proof.
  intros H. induction l as [|x l IH]; [by apply keeps_pure|].
  simpl. by apply (keeps_bind P (body x) (λ _, for_each l body)).
Qed.

End Frame.

(** One step of a proof that a script keeps a property: through the
    binds, the conditionals and the primitive operations. *)
Ltac keeps_step :=
  lazymatch goal with
  | |- keeps _ (_ ≫= _) => apply keeps_bind; [|intros ?]
  | |- keeps _ (when _ _) => apply keeps_when
  | |- keeps _ (print _) => apply keeps_pure; reflexivity
  | |- keeps _ (gets _) => apply keeps_pure; reflexivity
  | |- keeps _ (mret _) => apply keeps_pure; reflexivity
  | |- keeps _ (sys_exit_msg _) => apply keeps_pure; reflexivity
  | |- keeps _ (sys_exit _) => apply keeps_pure; reflexivity
  | |- keeps _ (raise _) => apply keeps_pure; reflexivity
  | |- keeps _ (subprocess_run _ _ _) => apply keeps_subprocess_run; auto
  | |- keeps _ (modify _) => apply keeps_modify; auto
  | |- keeps _ (for_each _ _) => apply keeps_for_each; intros ?
  | |- keeps _ (match ?x with _ => _ end) => destruct x
  end.

(** ** The importer, continued *)

Section ImporterExtras.
Context {Repo : Type}.
Implicit Types (E : Env Repo) (w : World Repo).
Import apply_patches.

(** X1: started without a target path (fewer than two entries in
    [sys.argv]), the importer prints its usage text on stderr and exits
    with status 1; it starts no child process, prints nothing on stdout
    and leaves the world as it is, whatever BASE_COMMIT.txt holds. *)
Theorem X1_importer_without_argument_prints_usage E argv w :
  length argv < 2 →
  script E argv w
  = mkRun [Stderr ("Usage: python apply_patches.py <path-to-eden-repo>" +:+ Py.LF +:+ Py.LF
                   +:+ "Example:" +:+ Py.LF
                   +:+ "  python apply_patches.py ../eden" +:+ Py.LF
                   +:+ "  python apply_patches.py C:\path\to\eden")]
          w (SysExit 1).
Proof.
  intros Hargv.
  assert (Hmain : main E argv w = mkRun [Stderr usage] w (SysExit 1)).
  { unfold main. rewrite bind_run. by rewrite bool_decide_true. }
  unfold script. rewrite bind_run, Hmain. reflexivity.
Qed.

(** X2: the first child process of a run of the importer's [main], if
    there is one, is [git cat-file -t <commit>], run in the target, where
    <commit> is the text of BASE_COMMIT.txt with the surrounding
    whitespace removed and has at least seven characters; the target then
    has a [.git] entry.  When that command fails, it is the only child
    process: [main] exits with status 1 and a message on stderr that
    shows the first twelve characters of the commit and suggests
    [git fetch], so the target is neither checked out nor cleaned. *)
Theorem X2_importer_checks_commit_before_touching_target E argv w :
  let r := main E argv w in
  let eden := resolve E (nth 1 argv "") in
  commands (trace r) = []
  ∨ ∃ text,
      let commit := Py.strip text in
      let cat_file := ["git"; "cat-file"; "-t"; commit] in
      let c := subprocess E cat_file eden w in
      base_commit_file w = Some text
      ∧ trimmed commit ∧ 7 ≤ Py.len commit
      ∧ eden ∈ dot_git w
      ∧ (∃ more, commands (trace r) = (cat_file, eden, child_returncode c) :: more)
      ∧ (child_returncode c ≠ 0%Z →
         commands (trace r) = [(cat_file, eden, child_returncode c)]
         ∧ outcome r = SysExit 1
         ∧ final r = child_world c
         ∧ last (trace r)
           = Some (Stderr ("Error: Commit " +:+ Py.slice_to 12 commit
                           +:+ " not found in repository." +:+ Py.LF
                           +:+ "  Try running 'git fetch' in your eden repo to update."))).
Proof.
  intros r eden. subst r.
  unfold main, validate_eden_repo, run_git, print_header. unfold_monad. simpl.
  case_bool_decide; simpl; [by left|].
  rewrite load_base_commit_run.
  destruct (base_commit_file w) as [text|] eqn:Hfile; simpl; [|by left].
  destruct (_ || _) eqn:Hok; simpl; [by left|].
  apply orb_false_iff in Hok as [_ Hlen]. apply bool_decide_eq_false in Hlen.
  case_bool_decide as Hgit; simpl; [|by left].
  right. exists text. cbv zeta. fold eden.
  split; [reflexivity|]. split; [apply StripFacts.strip_trimmed|]. split; [lia|].
  split; [exact Hgit|].
  destruct (subprocess E ["git"; "cat-file"; "-t"; Py.strip text] eden w)
    as [rc out w1] eqn:Hchild. simpl.
  destruct (Z.eqb_spec rc 0) as [->|Hrc]; simpl.
  2:{ split; [by eexists|]. intros _. repeat split. }
  split; [|intros Hne; contradiction].
  call_child. on_returncode; [|eexists; reflexivity].
  call_child. on_returncode; [|eexists; reflexivity].
  call_child. call_child. on_returncode; [|eexists; reflexivity].
  match goal with |- context [apply_step E ?e ?w] => destruct (apply_step E e w) end.
  eexists; reflexivity.
Qed.

(** The child processes of a run of [main] are the importer's own. *)
Lemma importer_main_commands E argv w cmd cwd rc :
  Exec cmd cwd rc ∈ trace (main E argv w) →
  cwd = resolve E (nth 1 argv "") ∧ importer_command E cmd.
Proof.
  set (eden := resolve E (nth 1 argv "")).
  assert (Hplan : ∀ commit c, c ∈ importer_commands commit → importer_command E c)
    by (intros commit c Hc; left; by exists commit).
  unfold main, validate_eden_repo, run_git, print_header. unfold_monad. simpl.
  fold eden.
  case_bool_decide; simpl; [by intros ?%list_elem_of_singleton|].
  rewrite load_base_commit_run.
  destruct (base_commit_file w) as [text|] eqn:Hfile; simpl.
  2:{ rewrite !elem_of_cons, elem_of_nil. intros Hin. find_command Hin. }
  destruct (_ || _); simpl.
  { rewrite !elem_of_cons, elem_of_nil. intros Hin. find_command Hin. }
  case_bool_decide; simpl.
  2:{ rewrite !elem_of_cons, elem_of_nil. intros Hin. find_command Hin. }
  pose proof (Hplan (Py.strip text)) as Hp. unfold importer_commands in Hp.
  call_child. on_returncode.
  2:{ rewrite !elem_of_cons, elem_of_nil. intros Hin. find_command Hin;
      injection Hin as -> -> ->; (split; [reflexivity|]); apply Hp; repeat constructor. }
  call_child. on_returncode.
  2:{ rewrite !elem_of_cons, elem_of_nil. intros Hin. find_command Hin;
      injection Hin as -> -> ->; (split; [reflexivity|]); apply Hp; repeat constructor. }
  call_child. on_returncode.
  2:{ rewrite !elem_of_cons, elem_of_nil. intros Hin. find_command Hin;
      injection Hin as -> -> ->; (split; [reflexivity|]); apply Hp; repeat constructor. }
  call_child. call_child. on_returncode.
  2:{ rewrite !elem_of_cons, elem_of_nil. intros Hin. find_command Hin;
      injection Hin as -> -> ->; (split; [reflexivity|]); apply Hp; repeat constructor. }
  match goal with |- context [apply_step E ?e ?w] =>
    pose proof (apply_step_run E e w) as Hstep; destruct (apply_step E e w) as [t4 w6 o4] end.
  cbn [trace]. rewrite !elem_of_cons. intros Hin. find_command Hin;
    try (injection Hin as -> -> ->; (split; [reflexivity|]); apply Hp; repeat constructor).
  cbv zeta in Hstep. destruct (Py.sorted _) as [|name names] eqn:Hnames.
  { injection Hstep as -> _ _. rewrite !elem_of_cons, elem_of_nil in Hin. find_command Hin. }
  destruct (negb _); injection Hstep as -> _ _;
    unfold failure_report, success_report in Hin;
    rewrite !elem_of_cons, elem_of_nil in Hin; find_command Hin;
    injection Hin as -> -> ->; (split; [reflexivity|]); right;
    exists (name :: names); reflexivity.
Qed.

(** X3: every child process the importer starts, in either call of
    [main], runs in the resolved target directory and is one of
    [git cat-file -t c], [git checkout -f c], [git clean -fdx],
    [git branch -D patched-release], [git checkout -b patched-release]
    or [git am --3way] followed by paths inside the patches directory. *)
Theorem X3_importer_runs_only_its_six_commands E argv w cmd cwd rc :
  Exec cmd cwd rc ∈ trace (script E argv w) →
  cwd = resolve E (nth 1 argv "") ∧ importer_command E cmd.
Proof.
  unfold script. rewrite bind_run.
  destruct (outcome (main E argv w)); cbn [trace prepend];
    rewrite ?elem_of_app; intros Hin;
    repeat match type of Hin with _ ∨ _ => destruct Hin as [Hin|Hin] end;
    by apply importer_main_commands in Hin.
Qed.

Lemma importer_main_keeps E argv (P : World Repo → Prop) :
  (∀ cmd cwd w, P w → P (child_world (subprocess E cmd cwd w))) →
  keeps P (main E argv).
Proof.
  intros Hgit.
  unfold main, validate_eden_repo, apply_step, load_base_commit, run_git, print_header.
  cbv zeta. repeat keeps_step.
Qed.

(** X4: the importer writes no file itself: a property of the world
    that no child process destroys still holds when the process ends,
    however it ends. *)
Theorem X4_importer_writes_nothing_itself E argv (P : World Repo → Prop) w :
  (∀ cmd cwd w0, P w0 → P (child_world (subprocess E cmd cwd w0))) →
  P w → P (final (script E argv w)).
Proof.
  intros Hgit. revert w. change (keeps P (script E argv)).
  unfold script. apply keeps_bind; [|intros _]; by apply importer_main_keeps.
Qed.

(** X5: the guard at the end of apply_patches.py stands twice.  When
    the first call of [main] exits, the process ends there with status 1;
    when it returns, [main] runs a second time from the world the first
    call left.  A process that ends with status 0 has therefore gone
    through [main] twice, and [git clean -fdx] has succeeded in the
    target in each of the two calls. *)
Theorem X5_importer_main_runs_twice E argv w :
  let r1 := main E argv w in
  let r2 := main E argv (final r1) in
  let r := script E argv w in
  let clean := Exec ["git"; "clean"; "-fdx"] (resolve E (nth 1 argv "")) 0 in
  (outcome r1 ≠ Returned tt → r = r1 ∧ outcome r = SysExit 1)
  ∧ (outcome r1 = Returned tt → r = prepend (trace r1) r2)
  ∧ (outcome r = Returned tt →
     trace r = trace r1 ++ trace r2 ∧ clean ∈ trace r1 ∧ clean ∈ trace r2).
Proof.
  intros r1 r2 r clean.
  assert (Hclean : ∀ w0, outcome (main E argv w0) = Returned tt → clean ∈ trace (main E argv w0)).
  { intros w0 Hret.
    destruct (importer_main_cases E argv w0) as [[Hexit _]|Hreach]; [congruence|].
    destruct Hreach as (text & w1 & w2 & w3 & rcD & w4 & w5 & out1 & out2 & out3
                        & outD & out5 & _ & _ & _ & _ & _ & _ & ->).
    unfold prepend. cbn [trace]. apply elem_of_app. left. subst clean.
    rewrite !elem_of_cons. tauto. }
  assert (Hr : r = match outcome r1 with
                   | Returned _ => prepend (trace r1) r2
                   | SysExit status => mkRun (trace r1) (final r1) (SysExit status)
                   | Uncaught exc => mkRun (trace r1) (final r1) (Uncaught exc)
                   end) by exact (bind_run (main E argv) (λ _, main E argv) w).
  destruct (importer_main_outcome E argv w) as [Hret|(Hexit & _)]; fold r1 in Hret || fold r1 in Hexit.
  - rewrite Hret in Hr. split; [intros Hne; contradiction|]. split; [intros _; exact Hr|].
    rewrite Hr. unfold prepend. cbn [trace outcome]. intros Hret2.
    split; [reflexivity|]. split; [by apply Hclean|]. by apply Hclean.
  - rewrite Hexit in Hr. split.
    + intros _. rewrite Hr. split; [|reflexivity].
      destruct r1 as [t1 w1 o1]. cbn in *. by subst o1.
    + split; [intros Hret; congruence|]. rewrite Hr. cbn [outcome]. intros Hret. discriminate Hret.
Qed.

Lemma cons_prefix {A} (x : A) l t :
  (∃ before, l = before ++ t) → ∃ before, x :: l = before ++ t.
Proof. intros [before ->]. by exists (x :: before). Qed.

(** X6: the return code of [git branch -D patched-release] is ignored.
    With a usable BASE_COMMIT.txt, a target that has a [.git] entry and
    successful [cat-file], [checkout -f] and [clean], the next two child
    processes are the branch deletion and [git checkout -b
    patched-release], started in the world the deletion left, whatever
    the deletion returned; the deletion is not echoed; when the branch
    creation succeeds the run goes on with step 4, and when it fails the
    run exits with status 1. *)
Theorem X6_failed_branch_delete_is_ignored E argv w text :
  let eden := resolve E (nth 1 argv "") in
  let commit := Py.strip text in
  let cat_file := ["git"; "cat-file"; "-t"; commit] in
  let checkout := ["git"; "checkout"; "-f"; commit] in
  let clean := ["git"; "clean"; "-fdx"] in
  let delete := ["git"; "branch"; "-D"; "patched-release"] in
  let create := ["git"; "checkout"; "-b"; "patched-release"] in
  let c1 := subprocess E cat_file eden w in
  let c2 := subprocess E checkout eden (child_world c1) in
  let c3 := subprocess E clean eden (child_world c2) in
  let c4 := subprocess E delete eden (child_world c3) in
  let c5 := subprocess E create eden (child_world c4) in
  let r := main E argv w in
  2 ≤ length argv → base_commit_file w = Some text → 7 ≤ Py.len commit →
  eden ∈ dot_git w →
  child_returncode c1 = 0%Z → child_returncode c2 = 0%Z → child_returncode c3 = 0%Z →
  (∃ more, commands (trace r)
           = [(cat_file, eden, 0%Z); (checkout, eden, 0%Z); (clean, eden, 0%Z);
              (delete, eden, child_returncode c4); (create, eden, child_returncode c5)]
             ++ more)
  ∧ (Stdout "  > git branch -D patched-release" ∉ trace r)
  ∧ (child_returncode c5 = 0%Z →
     let step := apply_step E eden (child_world c5) in
     outcome r = outcome step ∧ final r = final step
     ∧ ∃ before, trace r = before ++ trace step)
  ∧ (child_returncode c5 ≠ 0%Z → outcome r = SysExit 1 ∧ final r = child_world c5).
Proof.
  intros eden commit cat_file checkout clean delete create c1 c2 c3 c4 c5 r
    Hargv Hfile Hlen Hgit.
  subst r c5 c4 c3 c2 c1 cat_file checkout clean delete create.
  unfold main, validate_eden_repo, run_git, print_header. unfold_monad. simpl.
  fold eden. rewrite bool_decide_false by lia. simpl.
  rewrite load_base_commit_run, Hfile. simpl. fold commit.
  assert (Hne : commit ≠ "") by (intros Heq; rewrite Heq in Hlen; vm_compute in Hlen; lia).
  rewrite (bool_decide_false (commit = "")) by done.
  rewrite (bool_decide_false (Py.len commit < 7)) by lia. simpl.
  rewrite (bool_decide_true (eden ∈ dot_git w)) by done. simpl.
  destruct (subprocess E ["git"; "cat-file"; "-t"; commit] eden w) as [rc1 out1 w1]. simpl.
  intros ->. simpl.
  destruct (subprocess E ["git"; "checkout"; "-f"; commit] eden w1) as [rc2 out2 w2]. simpl.
  intros ->. simpl.
  destruct (subprocess E ["git"; "clean"; "-fdx"] eden w2) as [rc3 out3 w3]. simpl.
  intros ->. simpl.
  destruct (subprocess E ["git"; "branch"; "-D"; "patched-release"] eden w3)
    as [rc4 out4 w4]. simpl.
  destruct (subprocess E ["git"; "checkout"; "-b"; "patched-release"] eden w4)
    as [rc5 out5 w5]. simpl.
  destruct (Z.eqb_spec rc5 0) as [->|Hrc5]; simpl.
  - pose proof (apply_step_run E eden w5) as Hstep.
    destruct (apply_step E eden w5) as [t5 w6 o5] eqn:Happly.
    split; [eexists; reflexivity|]. split.
    + cbn [trace]. rewrite !not_elem_of_cons. repeat (split; [discriminate || event_neq|]).
      cbv zeta in Hstep. destruct (Py.sorted _); [|destruct (negb _)];
        injection Hstep as -> _ _; unfold failure_report, success_report;
        rewrite ?not_elem_of_app, !not_elem_of_cons;
        repeat split; try apply not_elem_of_nil; discriminate || event_neq.
    + split; [|intros Hne5; contradiction]. intros _. cbn [trace final outcome].
      split; [reflexivity|]. split; [reflexivity|].
      repeat apply cons_prefix. by exists [].
  - split; [eexists; reflexivity|]. split.
    + cbn [trace]. rewrite !not_elem_of_cons. repeat split; try apply not_elem_of_nil;
        discriminate || event_neq.
    + split; [intros Heq; contradiction|]. by intros _.
Qed.

End ImporterExtras.

(** ** The exporter, continued *)

Section ExporterExtras.
Context {Repo : Type}.
Implicit Types (E : Env Repo) (w : World Repo).
Import export_patches.

Lemma clean_old_patches_commands w : commands (trace (clean_old_patches w)) = [].
Proof.
  rewrite clean_old_patches_run. cbn [trace]. 
  change (Stdout "[1/5] Cleaning old patches..." :: ?l) with ([Stdout "[1/5] Cleaning old patches..."] ++ l).
  rewrite !commands_app, commands_printed.
  by destruct (bool_decide _).
Qed.

(** The commands and the end of the exporter's [main] from
    [generate_patches] on. *)
Lemma after_cleaning_run E eden w :
  let fp := "git" :: format_patch_args E in
  let c3 := subprocess E fp eden w in
  let c4 := subprocess E ["git"; "diff"; "gitlab/master..HEAD"] eden
              (set_preview_diff (Some "") (child_world c3)) in
  let w4 := set_preview_diff (Some (child_stdout c4)) (child_world c4) in
  let r := after_cleaning E eden w in
  if (child_returncode c3 =? 0)%Z then
    commands (trace r)
    = (fp, eden, child_returncode c3)
      :: (["git"; "diff"; "gitlab/master..HEAD"], eden, child_returncode c4)
      :: match patches_dir w4 with
         | Some files =>
             let w5 :=
               set_patches_dir
                 (Some (<["series" := series_text (Py.sorted (glob_patch (Some files)))]> files))
                 w4 in
             [(["git"; "rev-parse"; "gitlab/master"], eden,
               child_returncode (subprocess E ["git"; "rev-parse"; "gitlab/master"] eden w5))]
         | None => []
         end
    ∧ (patches_dir w4 = None → final r = w4)
  else
    commands (trace r) = [(fp, eden, child_returncode c3)]
    ∧ final r = child_world c3
    ∧ last (trace r)
      = Some (Stderr ("Command failed with exit code " +:+ Py.str_int (child_returncode c3))).
Proof.
  intros fp c3 c4 w4 r. subst r. unfold after_cleaning.
  rewrite bind_run, generate_patches_run. cbv zeta. fold fp c3.
  destruct (child_returncode c3 =? 0)%Z; cbn [outcome trace final]; [|done].
  rewrite bind_run, generate_preview_diff_run. cbv zeta. fold c4. cbn [outcome trace final].
  fold w4. rewrite bind_run, generate_series_file_run.
  destruct (patches_dir w4) as [files|]; cbn [outcome trace final]; [|done].
  rewrite bind_run, update_base_commit_run. cbv zeta.
  split; [|discriminate].
  by destruct (child_returncode _ =? 0)%Z.
Qed.

(** The commands of a run of [main] that has passed the two checks. *)
Lemma exporter_main_commands E argv w w1 :
  let eden := eden_repo_of E argv in
  let remote := ["git"; "remote"; "get-url"; "gitlab"] in
  main E argv w
  = prepend ([Stdout ("Eden repo:   " +:+ eden); Stdout ("Patch repo:  " +:+ PATCH_REPO E);
              Stdout ""]
             ++ [Stdout "  > git remote get-url gitlab"; Exec remote eden 0]
             ++ trace (clean_old_patches w1))
      (after_cleaning E eden (cleaned w1)) →
  commands (trace (main E argv w))
  = (remote, eden, 0%Z) :: commands (trace (after_cleaning E eden (cleaned w1))).
Proof.
  intros eden remote ->. unfold prepend. cbn [trace].
  rewrite !commands_app, clean_old_patches_commands. reflexivity.
Qed.

(** X7: when the fork has a [.git] entry but [git remote get-url
    gitlab] fails, the exporter exits with status 1 and a message on
    stderr that names the missing remote; that command is its only child
    process, and the exporter itself has changed nothing (in particular
    no old patch has been removed yet). *)
Theorem X7_exporter_stops_without_upstream_remote E argv w :
  let eden := eden_repo_of E argv in
  let remote := ["git"; "remote"; "get-url"; "gitlab"] in
  let c := subprocess E remote eden w in
  let r := main E argv w in
  eden ∈ dot_git w → child_returncode c ≠ 0%Z →
  outcome r = SysExit 1 ∧ exit_status (outcome r) = 1%Z
  ∧ commands (trace r) = [(remote, eden, child_returncode c)]
  ∧ final r = child_world c
  ∧ last (trace r)
    = Some (Stderr ("Error: No 'gitlab' remote found in eden repo." +:+ Py.LF
                    +:+ "  Add a remote named 'gitlab' pointing to your upstream.")).
Proof.
  intros eden remote c r Hgit Hrc. subst r.
  rewrite exporter_main_unfold. fold eden.
  rewrite !bind_print, !prepend_prepend, bind_run, validate_eden_repo_run.
  rewrite bool_decide_true by done. cbv zeta. fold remote c.
  destruct (Z.eqb_spec (child_returncode c) 0) as [Hz|_]; [contradiction|].
  cbn [outcome trace final]. rewrite prepend_run. cbn [outcome trace final].
  repeat split.
Qed.

(** X8: when the two checks pass and [git format-patch] fails, the
    exporter exits with status 1 and the diagnostic on stderr, having
    run the remote check and [format-patch] only.  The old patch files
    were removed before [format-patch] started, and after it the
    exporter writes nothing: the final world is the one [format-patch]
    left, so preview.diff, the series file and BASE_COMMIT.txt are not
    touched by the exporter. *)
Theorem X8_failed_format_patch_comes_after_cleaning E argv w :
  let eden := eden_repo_of E argv in
  let remote := ["git"; "remote"; "get-url"; "gitlab"] in
  let format_patch := "git" :: format_patch_args E in
  let c1 := subprocess E remote eden w in
  let c3 := subprocess E format_patch eden (cleaned (child_world c1)) in
  let r := main E argv w in
  eden ∈ dot_git w → child_returncode c1 = 0%Z → child_returncode c3 ≠ 0%Z →
  outcome r = SysExit 1 ∧ exit_status (outcome r) = 1%Z
  ∧ commands (trace r) = [(remote, eden, 0%Z); (format_patch, eden, child_returncode c3)]
  ∧ glob_patch (patches_dir (cleaned (child_world c1))) = []
  ∧ final r = child_world c3
  ∧ last (trace r)
    = Some (Stderr ("Command failed with exit code " +:+ Py.str_int (child_returncode c3))).
Proof.
  intros eden remote format_patch c1 c3 r Hgit Hrc1 Hrc3.
  destruct (exporter_main_cases E argv w) as [H|[H|H]]; fold eden r in H.
  { by destruct H as [Hno _]. }
  { destruct H as (_ & _ & Hne & _). by fold remote c1 in Hne. }
  destruct H as (_ & out1 & w1 & Hc1 & Hr). fold remote c1 in Hc1.
  pose proof (exporter_main_commands E argv w w1 Hr) as Hcmds.
  fold eden remote r in Hcmds.
  assert (Hw1 : child_world c1 = w1) by (by rewrite Hc1).
  pose proof (after_cleaning_run E eden (cleaned w1)) as Hrun. cbv zeta in Hrun.
  pose proof (after_cleaning_result E eden (cleaned w1)) as Hres. cbv zeta in Hres.
  subst c3. rewrite Hw1 in *. fold format_patch in Hrun, Hres.
  set (c3 := subprocess E format_patch eden (cleaned w1)) in *.
  destruct (Z.eqb_spec (child_returncode c3) 0) as [Hz|_]; [contradiction|].
  destruct Hrun as (Hc & Hf & Hl).
  assert (Hout : outcome r = SysExit 1) by (by rewrite Hr).
  split; [exact Hout|]. split; [by rewrite Hout|].
  split; [by rewrite Hcmds, Hc|].
  split; [apply glob_patch_cleaned|].
  split; [by rewrite Hr|].
  rewrite Hr. unfold prepend. cbn [trace].
  destruct (trace (after_cleaning E eden (cleaned w1))) as [|e t] eqn:Ht using rev_ind;
    [discriminate Hl|].
  rewrite last_snoc in Hl. rewrite !app_assoc, last_snoc. exact Hl.
Qed.


(** X10: whatever happens, the commands the exporter starts are an
    initial segment of: remote check, [format-patch], [diff],
    [rev-parse]; each is started in the fork. *)
Theorem X10_exporter_commands_in_order E argv w :
  let eden := eden_repo_of E argv in
  let started := commands (trace (main E argv w)) in
  started.*1.*1 `prefix_of` exporter_commands E
  ∧ Forall (λ c, c.1.2 = eden) started.
Proof.
  intros eden started. subst started.
  destruct (exporter_main_cases E argv w) as [H|[H|H]]; fold eden in H.
  { destruct H as (_ & _ & _ & -> & _). split; [apply prefix_nil|constructor]. }
  { destruct H as (_ & _ & _ & ->). split; [by eexists|by repeat constructor]. }
  destruct H as (Hgit & out1 & w1 & Hc1 & Hr).
  rewrite (exporter_main_commands E argv w w1 Hr). fold eden.
  pose proof (after_cleaning_run E eden (cleaned w1)) as Hrun. cbv zeta in Hrun.
  destruct (child_returncode _ =? 0)%Z.
  - destruct Hrun as [-> _].
    destruct (patches_dir _); (split; [by eexists|by repeat constructor]).
  - destruct Hrun as (-> & _). split; [by eexists|by repeat constructor].
Qed.

Lemma exporter_main_keeps E argv (P : World Repo → Prop) :
  (∀ cmd w, cmd ∈ exporter_commands E → P w →
     P (child_world (subprocess E cmd (eden_repo_of E argv) w))) →
  (∀ d w, P w → P (set_patches_dir d w)) →
  (∀ f w, P w → P (set_preview_diff f w)) →
  (∀ f w, P w → P (set_base_commit_file f w)) →
  keeps P (main E argv).
Proof.
  intros Hgit Hdir Hpreview Hbase.
  assert (Hmkdir : ∀ w, P w → P (mkdir_patches w)).
  { intros w Hw. unfold mkdir_patches. destruct (patches_dir w); auto. }
  pose proof (λ w, Hgit ["git"; "remote"; "get-url"; "gitlab"] w
                     ltac:(unfold exporter_commands; repeat constructor)) as H1.
  pose proof (λ w, Hgit ("git" :: format_patch_args E) w
                     ltac:(unfold exporter_commands; repeat constructor)) as H2.
  pose proof (λ w, Hgit ["git"; "diff"; "gitlab/master..HEAD"] w
                     ltac:(unfold exporter_commands; repeat constructor)) as H3.
  pose proof (λ w, Hgit ["git"; "rev-parse"; "gitlab/master"] w
                     ltac:(unfold exporter_commands; repeat constructor)) as H4.
  unfold main, validate_eden_repo, clean_old_patches, generate_patches,
    generate_preview_diff, generate_series_file, update_base_commit, print_done,
    unlink, run_git, print_header.
  cbv zeta. repeat keeps_step.
Qed.

(** X11: the exporter itself writes only into patches/, preview.diff
    and BASE_COMMIT.txt: a property of the world that its four commands
    keep, and that does not depend on these three, still holds when
    [main] ends, however it ends. *)
Theorem X11_exporter_writes_only_its_three_outputs E argv (P : World Repo → Prop) w :
  (∀ cmd w0, cmd ∈ exporter_commands E → P w0 →
     P (child_world (subprocess E cmd (eden_repo_of E argv) w0))) →
  (∀ d w0, P w0 → P (set_patches_dir d w0)) →
  (∀ f w0, P w0 → P (set_preview_diff f w0)) →
  (∀ f w0, P w0 → P (set_base_commit_file f w0)) →
  P w → P (final (main E argv w)).
Proof. intros Hgit Hdir Hpreview Hbase. by apply exporter_main_keeps. Qed.


Lemma cleaned_cleaned w : cleaned (cleaned w) = cleaned w.
Proof.
  destruct w as [base dir preview git repo]. unfold cleaned, set_patches_dir. cbn.
  f_equal. f_equal. apply map_filter_id. intros name text Hin.
  by apply map_lookup_filter_Some in Hin as [_ Hnot].
Qed.


(** X13: when [clean_old_patches] returns (in the model it always
    does, since the patches directory holds regular files only; the
    real [f.unlink()] raises on an entry that is a directory), it has
    printed one "Removed" line for each patch file that was in the
    directory and for no other name, and the "(No old patches to
    remove)" line exactly when there was none, and no patch file is
    left.  Run a second time it finds nothing to remove and leaves the
    world as the first run left it. *)
Theorem X13_cleaning_twice_is_cleaning_once w :
  let r1 := export_patches.clean_old_patches w in
  let r2 := export_patches.clean_old_patches (final r1) in
  outcome r1 = Returned tt →
  (∀ name, Stdout ("  Removed: " +:+ name) ∈ trace r1 ↔ name ∈ glob_patch (patches_dir w))
  ∧ (Stdout "  (No old patches to remove)" ∈ trace r1 ↔ glob_patch (patches_dir w) = [])
  ∧ glob_patch (patches_dir (final r1)) = []
  ∧ r2 = mkRun [Stdout "[1/5] Cleaning old patches..."; Stdout "  (No old patches to remove)"]
               (final r1) (Returned tt).
Proof.
  intros r1 r2 _. subst r2 r1. rewrite !clean_old_patches_run. cbv zeta.
  cbn [outcome final trace].
  assert (Hremoved : ∀ name (l : list string), Stdout ("  Removed: " +:+ name)
                               ∈ (λ f, Stdout ("  Removed: " +:+ f)) <$> l ↔ name ∈ l).
  { intros name l. rewrite list_elem_of_fmap. split.
    - intros (f & Heq & Hin). injection Heq as Heq. cbv in Heq. by simplify_eq.
    - intros Hin. by exists name. }
  assert (Hnone : ∀ l : list string, Stdout "  (No old patches to remove)"
                               ∉ (λ f, Stdout ("  Removed: " +:+ f)) <$> l).
  { intros l (f & Heq & _)%list_elem_of_fmap. injection Heq as Heq. cbv in Heq. discriminate Heq. }
  split; [|split; [|split; [apply glob_patch_cleaned|]]].
  - intros name. rewrite elem_of_cons, elem_of_app, Hremoved. split.
    + intros [Heq|[Hin|Hin]]; [discriminate Heq|exact Hin|].
      destruct (bool_decide _); [|by apply elem_of_nil in Hin].
      apply list_elem_of_singleton in Hin. injection Hin as Hin. cbv in Hin. discriminate Hin.
    + intros Hin. right. by left.
  - rewrite elem_of_cons, elem_of_app. split.
    + intros [Heq|[Hin|Hin]]; [discriminate Heq|by apply Hnone in Hin|].
      case_bool_decide; [done|by apply elem_of_nil in Hin].
    + intros ->. right. right. rewrite bool_decide_true by done. by left.
  - rewrite cleaned_cleaned, glob_patch_cleaned. reflexivity.
Qed.

End ExporterExtras.

(** ** Both tools, continued *)

Section BothToolsExtras.
Context {Repo : Type}.
Implicit Types (E : Env Repo) (w : World Repo).

(** X14: the [run_git] of the importer and that of the exporter always
    leave the world the child process left.  With [check] off, or when
    the command returns 0, both return the same completed process (the
    return code, and the output when [capture] is on), after the same
    echo line.  They differ only when a checked command fails: the
    importer's diagnostic goes to stdout, the exporter's to stderr. *)
Theorem X14_runners_agree_unless_a_checked_command_fails E args cwd capture check w :
  let c := subprocess E ("git" :: args) cwd w in
  let importer := apply_patches.run_git E args cwd capture check w in
  let exporter := export_patches.run_git E args cwd capture check w in
  let echo := Stdout ("  > " +:+ Py.join " " ("git" :: args)) in
  let started := Exec ("git" :: args) cwd (child_returncode c) in
  let diagnostic := "Command failed with exit code " +:+ Py.str_int (child_returncode c) in
  final importer = child_world c ∧ final exporter = child_world c
  ∧ (check = false ∨ child_returncode c = 0%Z →
     importer = exporter
     ∧ importer = mkRun [echo; started] (child_world c)
                    (Returned (mkCompleted (child_returncode c)
                                 (if capture then Some (child_stdout c) else None))))
  ∧ (check = true → child_returncode c ≠ 0%Z →
     importer = mkRun [echo; started; Stdout diagnostic] (child_world c) (SysExit 1)
     ∧ exporter = mkRun [echo; started; Stderr diagnostic] (child_world c) (SysExit 1)).
Proof.
  intros c importer exporter echo started diagnostic. subst importer exporter.
  rewrite importer_run_git_run, exporter_run_git_run. cbv zeta. fold c.
  destruct check; cbn [andb].
  - destruct (Z.eqb_spec (child_returncode c) 0) as [Hz|Hnz]; cbn [negb final].
    + split; [reflexivity|]. split; [reflexivity|]. split; [by intros _|].
      intros _ Hne. contradiction.
    + split; [reflexivity|]. split; [reflexivity|]. split; [by intros [?|?]|].
      by intros _ _.
  - cbn [final]. split; [reflexivity|]. split; [reflexivity|]. split; [by intros _|].
    intros Hcheck. discriminate Hcheck.
Qed.

(** X15: every way out of either tool through [sys.exit] carries
    status 1: whichever check or command made the importer process or
    the exporter exit, and whatever return code git gave, the status of
    the exit is 1. *)
Theorem X15_every_sys_exit_has_status_1 E argv w status :
  (outcome (apply_patches.script E argv w) = SysExit status → status = 1%Z)
  ∧ (outcome (export_patches.main E argv w) = SysExit status → status = 1%Z).
Proof.
  split.
  - unfold apply_patches.script. rewrite bind_run.
    destruct (importer_main_outcome E argv w) as [->|[-> _]].
    + unfold prepend. cbn [outcome].
      destruct (importer_main_outcome E argv (final (apply_patches.main E argv w)))
        as [->|[-> _]]; [discriminate|].
      by intros [= <-].
    + cbn [outcome]. by intros [= <-].
  - destruct (exporter_main_cases E argv w) as [H|[H|H]].
    + destruct H as (_ & -> & _). by intros [= <-].
    + destruct H as (_ & -> & _). by intros [= <-].
    + destruct H as (_ & out1 & w1 & _ & ->). unfold prepend. cbn [outcome].
      pose proof (after_cleaning_result E (export_patches.eden_repo_of E argv) (cleaned w1))
        as Hres. cbv zeta in Hres.
      destruct (_ =? 0)%Z; [|rewrite Hres; by intros [= <-]].
      destruct (patches_dir _); [destruct Hres as [-> _]|rewrite Hres]; discriminate.
Qed.

End BothToolsExtras.

(** ** The further properties on the concrete environment *)

Lemma Demo_eden_has_dot_git st : Demo.eden ∈ dot_git (Demo.world st).
Proof. by apply elem_of_singleton. Qed.

Lemma X1_witness :
  length ["apply_patches.py"] < 2
  ∧ outcome (apply_patches.script Demo.env ["apply_patches.py"] (Demo.world 0)) = SysExit 1
  ∧ commands (trace (apply_patches.script Demo.env ["apply_patches.py"] (Demo.world 0))) = [].
Proof.
  assert (Hargv : length ["apply_patches.py"] < 2) by (simpl; lia).
  split; [exact Hargv|].
  rewrite (X1_importer_without_argument_prints_usage Demo.env _ (Demo.world 0) Hargv).
  split; reflexivity.
Defined.

Lemma X2_witness :
  let r := apply_patches.main Demo.env Demo.argv (Demo.world 1) in
  child_returncode (subprocess Demo.env ["git"; "cat-file"; "-t"; Demo.hash] Demo.eden
                      (Demo.world 1)) ≠ 0%Z
  ∧ outcome r = SysExit 1
  ∧ commands (trace r) = [(["git"; "cat-file"; "-t"; Demo.hash], Demo.eden, 1%Z)].
Proof.
  intros r.
  assert (Hrc : child_returncode (subprocess Demo.env ["git"; "cat-file"; "-t"; Demo.hash]
                                    Demo.eden (Demo.world 1)) ≠ 0%Z)
    by (vm_compute; discriminate).
  split; [exact Hrc|].
  destruct (X2_importer_checks_commit_before_touching_target Demo.env Demo.argv (Demo.world 1))
    as [Hnone|(text & Hfile & _ & _ & _ & _ & Hfail)].
  - vm_compute in Hnone. discriminate Hnone.
  - injection Hfile as <-.
    destruct (Hfail Hrc) as (Hcmds & Hout & _).
    split; [exact Hout|]. etrans; [exact Hcmds|]. vm_compute. reflexivity.
Defined.

Lemma X3_witness :
  let cmd := ["git"; "cat-file"; "-t"; Demo.hash] in
  Exec cmd Demo.eden 0 ∈ trace (apply_patches.script Demo.env Demo.argv (Demo.world 0))
  ∧ Demo.eden = resolve Demo.env (nth 1 Demo.argv "")
  ∧ importer_command Demo.env cmd.
Proof.
  intros cmd.
  assert (Hin : Exec cmd Demo.eden 0
                ∈ trace (apply_patches.script Demo.env Demo.argv (Demo.world 0))).
  { vm_compute. do 6 apply list_elem_of_further. apply list_elem_of_here. }
  split; [exact Hin|].
  exact (X3_importer_runs_only_its_six_commands Demo.env Demo.argv (Demo.world 0)
           cmd Demo.eden 0%Z Hin).
Defined.

Lemma Demo_git_keeps_base_commit_file cmd cwd (w : World Demo.Repo) :
  base_commit_file (child_world (subprocess Demo.env cmd cwd w)) = base_commit_file w.
Proof.
  cbn [subprocess Demo.env]. unfold Demo.git.
  repeat case_bool_decide; reflexivity.
Qed.

Lemma X4_witness :
  base_commit_file (final (apply_patches.script Demo.env Demo.argv (Demo.world 0)))
  = Some (Demo.hash +:+ Py.LF).
Proof.
  apply (X4_importer_writes_nothing_itself Demo.env Demo.argv
           (λ w, base_commit_file w = Some (Demo.hash +:+ Py.LF))).
  - intros cmd cwd w0 Hw0. by rewrite Demo_git_keeps_base_commit_file.
  - reflexivity.
Defined.

Lemma X5_witness :
  let r1 := apply_patches.main Demo.env Demo.argv (Demo.world 0) in
  let r2 := apply_patches.main Demo.env Demo.argv (final r1) in
  let r := apply_patches.script Demo.env Demo.argv (Demo.world 0) in
  outcome r = Returned tt
  ∧ trace r = trace r1 ++ trace r2
  ∧ Exec ["git"; "clean"; "-fdx"] Demo.eden 0 ∈ trace r1
  ∧ Exec ["git"; "clean"; "-fdx"] Demo.eden 0 ∈ trace r2.
Proof.
  intros r1 r2 r.
  assert (Hret : outcome r = Returned tt) by (vm_compute; reflexivity).
  split; [exact Hret|].
  exact (proj2 (proj2 (X5_importer_main_runs_twice Demo.env Demo.argv (Demo.world 0))) Hret).
Defined.

Lemma X6_witness :
  let E := Demo.flaky_env ["branch"] in
  let r := apply_patches.main E Demo.argv (Demo.world 0) in
  outcome r = Returned tt
  ∧ ∃ more,
      commands (trace r)
      = [(["git"; "cat-file"; "-t"; Demo.hash], Demo.eden, 0%Z);
         (["git"; "checkout"; "-f"; Demo.hash], Demo.eden, 0%Z);
         (["git"; "clean"; "-fdx"], Demo.eden, 0%Z);
         (["git"; "branch"; "-D"; "patched-release"], Demo.eden, 1%Z);
         (["git"; "checkout"; "-b"; "patched-release"], Demo.eden, 0%Z)] ++ more.
Proof.
  intros E r.
  assert (Hargv : 2 ≤ length Demo.argv) by (simpl; lia).
  assert (Hlen : 7 ≤ Py.len (Py.strip (Demo.hash +:+ Py.LF))) by (vm_compute; lia).
  pose proof (X6_failed_branch_delete_is_ignored E Demo.argv (Demo.world 0)
                (Demo.hash +:+ Py.LF) Hargv eq_refl Hlen (Demo_eden_has_dot_git 0)) as H.
  cbv zeta in H.
  destruct H as ([more Hcmds] & _ & Hstep & _); [vm_compute; reflexivity..|].
  split; [vm_compute; reflexivity|].
  exists more. etrans; [exact Hcmds|]. vm_compute. reflexivity.
Defined.

Lemma X7_witness :
  let remote := ["git"; "remote"; "get-url"; "gitlab"] in
  let r := export_patches.main Demo.env Demo.argv (Demo.world 1) in
  Demo.eden ∈ dot_git (Demo.world 1)
  ∧ child_returncode (subprocess Demo.env remote Demo.eden (Demo.world 1)) ≠ 0%Z
  ∧ outcome r = SysExit 1
  ∧ commands (trace r) = [(remote, Demo.eden, 1%Z)]
  ∧ final r = Demo.world 1.
Proof.
  intros remote r.
  assert (Hrc : child_returncode (subprocess Demo.env remote Demo.eden (Demo.world 1)) ≠ 0%Z)
    by (vm_compute; discriminate).
  destruct (X7_exporter_stops_without_upstream_remote Demo.env Demo.argv (Demo.world 1)
              (Demo_eden_has_dot_git 1) Hrc) as (Hout & _ & Hcmds & Hfinal & _).
  split; [apply Demo_eden_has_dot_git|]. split; [exact Hrc|]. split; [exact Hout|].
  split; [exact Hcmds|exact Hfinal].
Defined.

Lemma X8_witness :
  let E := Demo.flaky_env ["format-patch"] in
  let remote := ["git"; "remote"; "get-url"; "gitlab"] in
  let format_patch := "git" :: export_patches.format_patch_args E in
  let r := export_patches.main E Demo.argv (Demo.world 0) in
  outcome r = SysExit 1
  ∧ commands (trace r) = [(remote, Demo.eden, 0%Z); (format_patch, Demo.eden, 1%Z)]
  ∧ final r = cleaned (Demo.world 0).
Proof.
  intros E remote format_patch r.
  assert (Hrc1 : child_returncode (subprocess E remote Demo.eden (Demo.world 0)) = 0%Z)
    by (vm_compute; reflexivity).
  assert (Hrc3 : child_returncode
                   (subprocess E format_patch Demo.eden
                      (cleaned (child_world (subprocess E remote Demo.eden (Demo.world 0)))))
                 ≠ 0%Z) by (vm_compute; discriminate).
  destruct (X8_failed_format_patch_comes_after_cleaning E Demo.argv (Demo.world 0)
              (Demo_eden_has_dot_git 0) Hrc1 Hrc3) as (Hout & _ & Hcmds & _ & Hfinal & _).
  split; [exact Hout|]. split; [exact Hcmds|].
  etrans; [exact Hfinal|]. vm_compute. reflexivity.
Defined.


Lemma X11_witness :
  same_repositories (final (export_patches.main Demo.env Demo.argv (Demo.world 0)))
                    (Demo.world 0).
Proof.
  apply (X11_exporter_writes_only_its_three_outputs Demo.env Demo.argv
           (λ w, same_repositories w (Demo.world 0))).
  - intros cmd w0 Hcmd Hw0.
    eapply same_repositories_trans; [|exact Hw0].
    exact (proj1 (Demo_reads_only cmd w0 Hcmd)).
  - intros d w0 Hw0. exact Hw0.
  - intros f w0 Hw0. exact Hw0.
  - intros f w0 Hw0. exact Hw0.
  - split; reflexivity.
Defined.


Lemma X13_witness :
  let r1 := export_patches.clean_old_patches (Demo.world 0) in
  outcome r1 = Returned tt
  ∧ "0003-c.patch" ∈ glob_patch (patches_dir (Demo.world 0))
  ∧ Stdout "  Removed: 0003-c.patch" ∈ trace r1
  ∧ glob_patch (patches_dir (final r1)) = []
  ∧ export_patches.clean_old_patches (final r1)
    = mkRun [Stdout "[1/5] Cleaning old patches..."; Stdout "  (No old patches to remove)"]
            (final r1) (Returned tt).
Proof.
  intros r1.
  assert (Hret : outcome r1 = Returned tt) by (vm_compute; reflexivity).
  assert (Hin : "0003-c.patch" ∈ glob_patch (patches_dir (Demo.world 0))).
  { apply elem_of_glob_patch. split; [vm_compute; reflexivity|]. vm_compute. by eexists. }
  destruct (X13_cleaning_twice_is_cleaning_once (Demo.world 0) Hret)
    as (Hremoved & _ & Hnone & Hagain).
  split; [exact Hret|]. split; [exact Hin|].
  split; [exact (proj2 (Hremoved "0003-c.patch") Hin)|].
  split; [exact Hnone|exact Hagain].
Defined.

Lemma X14_witness :
  let w := Demo.world 128 in
  apply_patches.run_git Demo.env ["cat-file"; "-t"; Demo.hash] Demo.eden true false w
  = export_patches.run_git Demo.env ["cat-file"; "-t"; Demo.hash] Demo.eden true false w
  ∧ outcome (apply_patches.run_git Demo.env ["cat-file"; "-t"; Demo.hash] Demo.eden
               true false w)
    = Returned (mkCompleted 128 (Some "")).
Proof.
  intros w.
  destruct (X14_runners_agree_unless_a_checked_command_fails Demo.env
              ["cat-file"; "-t"; Demo.hash] Demo.eden true false w)
    as (_ & _ & Hreturns & _).
  destruct (Hreturns (or_introl eq_refl)) as [Hsame Hrun].
  split; [exact Hsame|]. by rewrite Hrun.
Defined.

Lemma X10_witness :
  let started :=
    commands (trace (export_patches.main Demo.env Demo.argv (Demo.world 1))) in
  started.*1.*1 `prefix_of` exporter_commands Demo.env
  ∧ Forall (λ c, c.1.2 = export_patches.eden_repo_of Demo.env Demo.argv) started.
Proof. exact (X10_exporter_commands_in_order Demo.env Demo.argv (Demo.world 1)). Defined.

Lemma X15_witness :
  ∃ status,
    outcome (apply_patches.script Demo.env Demo.argv (Demo.world 128)) = SysExit status
    ∧ status = 1%Z.
Proof.
  assert (Hexit : outcome (apply_patches.script Demo.env Demo.argv (Demo.world 128))
                  = SysExit 1) by (vm_compute; reflexivity).
  exists 1%Z. split; [exact Hexit|].
  exact (proj1 (X15_every_sys_exit_has_status_1 Demo.env Demo.argv (Demo.world 128) 1%Z)
           Hexit).
Defined.
